(** * SpaceStation cargo backend: a shallow embedding of [backend.py]

    The backend stores containers, items and logs in SQLite and answers
    HTTP requests.  The development below embeds the parts of it that the
    specification talks about:

    - the 3D bin packer [MaximalRectangleBinPack] ([BinPack]),
    - the request models ([Item], [Container]) and the placement planner
      [placement_recommendations] ([Planner]),
    - the [items] table, with rows read positionally as the handlers do
      ([Items]), and the handlers that read and update it ([Handlers]).

    Conventions of the embedding.

    - A Python [float] is a rational number [Q]: arithmetic is exact, so
      rounding is not modelled.  Comparisons are the boolean ones of the
      source ([>=], [>], [<]), written with [Qle_bool] and [Qltb].
    - A Python [int] is a [Z].
    - The global SQLite connection becomes a store value passed to and
      returned by every handler.
    - [datetime.utcnow()] is an input of the handlers that read it: the
      backend has no clock of its own.
    - A handler whose body raises ends in the [except Exception] clause and
      answers with status 500; this is the [Err500] outcome. *)

From Stdlib Require Import QArith Lqa ZArith Lia List String Bool Ascii Sorted
  Permutation.
Import ListNotations.

Open Scope Q_scope.

(** ** Comparisons on floats *)

(** [Qltb a b] is the Python test [a < b] (equivalently [b > a]). *)
Definition Qltb (a b : Q) : bool := negb (Qle_bool b a).

(** ** The bin packer *)

Module BinPack.

(** The dictionaries [{'x', 'y', 'z', 'width', 'height', 'depth'}] of
    [used_rectangles] and [free_rectangles]. *)
Record rect : Type := mkRect
  { x : Q; y : Q; z : Q; width : Q; height : Q; depth : Q }.

(** The mutable fields of a [MaximalRectangleBinPack] object.  The
    constructor arguments [width], [height], [depth] are stored by
    [__init__] and never read again. *)
Record t : Type := mkPack
  { used_rectangles : list rect;
    free_rectangles : list rect }.

(** [MaximalRectangleBinPack.__init__]. *)
Definition init (width height depth : Q) : t :=
  {| used_rectangles := [];
     free_rectangles := [mkRect 0 0 0 width height depth] |}.

(** [score_by_priority]. *)
Definition score_by_priority (rect : rect) (priority : Z) : Q :=
  z rect * (5 # 10) + x rect * (3 # 10) + y rect * (2 # 10)
  - inject_Z priority * (1 # 10).

(** The condition of the [if] in the scan of [insert]. *)
Definition fits (free_rect : rect) (item_width item_height item_depth : Q)
  : bool :=
  Qle_bool item_width (width free_rect)
  && Qle_bool item_height (height free_rect)
  && Qle_bool item_depth (depth free_rect).

(** The local variables [best_score], [best_rect], [best_free_index] of
    [insert]; [None] is the initial state ([float('inf')], [None], [-1]). *)
Definition best : Type := option (Q * rect * nat).

(** [score < best_score], where the initial [best_score] is infinite. *)
Definition improves (score : Q) (b : best) : bool :=
  match b with
  | None => true
  | Some (best_score, _, _) => Qltb score best_score
  end.

(** The [for i, free_rect in enumerate(self.free_rectangles)] loop of
    [insert], started at index [i] with the locals [b]. *)
Fixpoint scan (item_width item_height item_depth : Q) (priority : Z)
    (frs : list rect) (i : nat) (b : best) : best :=
  match frs with
  | [] => b
  | free_rect :: rest =>
      let b' :=
        if fits free_rect item_width item_height item_depth then
          let score := score_by_priority free_rect priority in
          if improves score b then Some (score, free_rect, i) else b
        else b in
      scan item_width item_height item_depth priority rest (S i) b'
  end.

(** [del l[i]] for an index within the list. *)
Fixpoint del {A : Type} (l : list A) (i : nat) : list A :=
  match l, i with
  | [], _ => []
  | _ :: l', O => l'
  | a :: l', S i' => a :: del l' i'
  end.

(** The three cuboids appended by [insert] when it splits [best_rect]. *)
Definition residuals (best_rect : rect)
    (item_width item_height item_depth : Q) : list rect :=
  let remaining_width := width best_rect - item_width in
  let remaining_height := height best_rect - item_height in
  let remaining_depth := depth best_rect - item_depth in
  [ mkRect (x best_rect + item_width) (y best_rect) (z best_rect)
      remaining_width item_height item_depth;
    mkRect (x best_rect) (y best_rect + item_height) (z best_rect)
      (width best_rect) remaining_height item_depth;
    mkRect (x best_rect) (y best_rect) (z best_rect + item_depth)
      (width best_rect) (height best_rect) remaining_depth ].

(** The guard [remaining_width > 0 and remaining_height > 0 and
    remaining_depth > 0] of the split. *)
Definition splits (best_rect : rect)
    (item_width item_height item_depth : Q) : bool :=
  Qltb 0 (width best_rect - item_width)
  && Qltb 0 (height best_rect - item_height)
  && Qltb 0 (depth best_rect - item_depth).

(** [insert].  [None] is the early [return None], which leaves the
    packer as it was; otherwise the result is the returned [new_rect]
    and the packer after the mutation. *)
Definition insert (self : t) (item_width item_height item_depth : Q)
    (priority : Z) : option (rect * t) :=
  match scan item_width item_height item_depth priority
          (free_rectangles self) 0 None with
  | None => None
  | Some (_, best_rect, best_free_index) =>
      let new_rect :=
        mkRect (x best_rect) (y best_rect) (z best_rect)
          item_width item_height item_depth in
      let used := used_rectangles self ++ [new_rect] in
      let free :=
        if splits best_rect item_width item_height item_depth
        then free_rectangles self
             ++ residuals best_rect item_width item_height item_depth
        else free_rectangles self in
      Some (new_rect,
            {| used_rectangles := used;
               free_rectangles := del free best_free_index |})
  end.

(** *** Geometry of the occupied and free boxes *)

(** The point [(px, py, pz)] lies strictly inside [r]. *)
Definition in_interior (r : rect) (px py pz : Q) : Prop :=
  x r < px /\ px < x r + width r /\
  y r < py /\ py < y r + height r /\
  z r < pz /\ pz < z r + depth r.

(** Two boxes have overlapping interiors when some point is strictly
    inside both. *)
Definition interiors_overlap (a b : rect) : Prop :=
  exists px py pz, in_interior a px py pz /\ in_interior b px py pz.

Definition interiors_disjoint (a b : rect) : Prop :=
  ~ interiors_overlap a b.

(** Every pair of boxes at distinct positions of [l] is disjoint. *)
Definition pairwise_disjoint (l : list rect) : Prop :=
  ForallOrdPairs interiors_disjoint l.

(** The closed box [a] lies within the closed box [b]. *)
Definition within (a b : rect) : Prop :=
  x b <= x a /\ x a + width a <= x b + width b /\
  y b <= y a /\ y a + height a <= y b + height b /\
  z b <= z a /\ z a + depth a <= z b + depth b.

(** Packer states reached from an empty container by successful
    [insert] calls whose extents are not negative. *)
Inductive reachable (W H D : Q) : t -> Prop :=
| reach_init : reachable W H D (init W H D)
| reach_insert : forall self a b c p new_rect self',
    reachable W H D self ->
    0 <= a -> 0 <= b -> 0 <= c ->
    insert self a b c p = Some (new_rect, self') ->
    reachable W H D self'.

(** The free set advertises a fit for the oriented extents. *)
Definition advertises (self : t) (a b c : Q) : bool :=
  existsb (fun f => fits f a b c) (free_rectangles self).

(** What the locals of the scan record about the part [done] of the free
    list already visited: nothing if no cuboid of it fits; otherwise the
    first cuboid of least score among those that fit, with its index. *)
Definition scan_inv (a b c : Q) (p : Z) (done : list rect) (bst : best)
  : Prop :=
  match bst with
  | None => forall f, In f done -> fits f a b c = false
  | Some (s, f, i) =>
      nth_error done i = Some f /\ fits f a b c = true /\
      s = score_by_priority f p /\
      (forall j g, nth_error done j = Some g -> fits g a b c = true ->
                   s <= score_by_priority g p) /\
      (forall j g, nth_error done j = Some g -> fits g a b c = true ->
                   (j < i)%nat -> s < score_by_priority g p)
  end.

(** Occupied boxes are pairwise disjoint, free cuboids are pairwise
    disjoint, no free cuboid meets an occupied box, and all of them lie
    within the container [C]. *)
Definition pack_inv (C : rect) (self : t) : Prop :=
  pairwise_disjoint (used_rectangles self) /\
  pairwise_disjoint (free_rectangles self) /\
  (forall f u, In f (free_rectangles self) -> In u (used_rectangles self) ->
               interiors_disjoint f u) /\
  Forall (fun r => within r C) (used_rectangles self) /\
  Forall (fun r => within r C) (free_rectangles self).


(** All three sides of a cuboid are positive. *)
Definition positive_sides (r : rect) : Prop :=
  0 < width r /\ 0 < height r /\ 0 < depth r.

End BinPack.

(** ** Points of a cuboid *)

Module Geometry.


End Geometry.

(** ** Concrete packer states *)

Module PackExamples.
Import BinPack.

(** The state after a successful insert, or the state itself. *)
Definition after_insert (self : t) (a b c : Q) (p : Z) : t :=
  match insert self a b c p with
  | Some (_, self') => self'
  | None => self
  end.



(** A 10 x 10 x 10 container after a 10 x 5 x 5 box, which leaves no
    remaining width. *)
Definition flush_box : t := after_insert (init 10 10 10) 10 5 5 1.

End PackExamples.

(** ** Outcomes of a request handler *)

(** [Ok a]: the handler returned [a].  [Err500]: its body raised and the
    [except Exception] clause turned that into a status 500 response (this
    includes the [HTTPException]s raised inside the [try] blocks, which are
    exceptions too). *)
Inductive outcome (A : Type) : Type :=
| Ok (a : A)
| Err500.

Arguments Ok {A} a.
Arguments Err500 {A}.

(** ** Sorting *)

(** [sorted(l, key=...)] and [ORDER BY]: a stable sort, where [leb u v]
    says that the key of [u] is at most the key of [v].  An element goes in
    front of the first later element whose key is not smaller. *)
Fixpoint insert_by {A : Type} (leb : A -> A -> bool) (u : A) (l : list A)
  : list A :=
  match l with
  | [] => [u]
  | v :: l' => if leb u v then u :: l else v :: insert_by leb u l'
  end.

Definition sort_by {A : Type} (leb : A -> A -> bool) (l : list A) : list A :=
  fold_right (insert_by leb) [] l.

(** A list is ascending for [leb]. *)
Definition ascending {A : Type} (leb : A -> A -> bool) (l : list A) : Prop :=
  StronglySorted (fun u v => leb u v = true) l.


(** ** Calendar days *)

Module Date.
Local Open Scope Z_scope.

(** A calendar day, as its proleptic Gregorian ordinal
    ([datetime.date.toordinal]).  A day stands for its ISO text
    [YYYY-MM-DD] too, which is how the [expiry_date] column and the query
    parameters hold it: on such texts the text order of SQLite and the
    order of the days agree. *)
Definition t : Type := Z.

Definition is_leap (year : Z) : bool :=
  (year mod 4 =? 0) && (negb (year mod 100 =? 0) || (year mod 400 =? 0)).

Definition days_before_year (year : Z) : Z :=
  let y := year - 1 in y * 365 + y / 4 - y / 100 + y / 400.

Definition days_before_month (year month : Z) : Z :=
  nth (Z.to_nat month) [0; 0; 31; 59; 90; 120; 151; 181; 212; 243; 273; 304; 334] 0
  + (if (2 <? month) && is_leap year then 1 else 0).

(** The day [year-month-day]. *)
Definition ymd (year month day : Z) : t :=
  days_before_year year + days_before_month year month + day.

(** [d1 <= d2]. *)
Definition leb (d1 d2 : t) : bool := d1 <=? d2.

(** [d + timedelta(days=n)]. *)
Definition add_days (d : t) (n : Z) : t := d + n.

End Date.

(** ** Request models *)

Module Item.
(** [class Item(BaseModel)].  [expiryDate] is a day in ISO format. *)
Record t : Type := mk
  { itemId : string;
    name : string;
    width : Q;
    depth : Q;
    height : Q;
    mass : Q;
    priority : Z;
    expiryDate : option Date.t;
    usageLimit : option Z;
    preferredZone : string }.
End Item.

Module Container.
(** [class Container(BaseModel)]. *)
Record t : Type := mk
  { containerId : string;
    zone : string;
    width : Q;
    depth : Q;
    height : Q }.
End Container.

(** ** The store *)

Module Items.

(** A row of the table [items].  [SELECT *] yields the columns in the order
    of [CREATE TABLE], so that a fetched row [item] has

    - [item[0]] = [item_id], [item[1]] = [name],
    - [item[2]] = [width], [item[3]] = [depth], [item[4]] = [height],
    - [item[5]] = [mass], [item[6]] = [priority],
    - [item[7]] = [expiry_date], [item[8]] = [usage_limit],
    - [item[9]] = [remaining_uses], [item[10]] = [preferred_zone],
    - [item[11]] = [container_id],
    - [item[12]] = [position_start_width],
    - [item[13]] = [position_start_depth],
    - [item[14]] = [position_start_height],
    - [item[15]] = [position_end_width],
    - [item[16]] = [position_end_depth],
    - [item[17]] = [position_end_height],
    - [item[18]] = [is_waste].

    A nullable column is an [option]. *)
Record row : Type := mkRow
  { item_id : string;
    name : string;
    width : Q;
    depth : Q;
    height : Q;
    mass : Q;
    priority : Z;
    expiry_date : option Date.t;
    usage_limit : option Z;
    remaining_uses : option Z;
    preferred_zone : string;
    container_id : option string;
    position_start_width : option Q;
    position_start_depth : option Q;
    position_start_height : option Q;
    position_end_width : option Q;
    position_end_depth : option Q;
    position_end_height : option Q;
    is_waste : bool }.

(** The positional reads [item[k]] that the handlers make. *)
Definition item_0 (item : row) : string := item_id item.
Definition item_1 (item : row) : string := name item.
Definition item_6 (item : row) : Z := priority item.
Definition item_7 (item : row) : option Date.t := expiry_date item.
Definition item_9 (item : row) : option Z := remaining_uses item.
Definition item_11 (item : row) : option string := container_id item.
Definition item_12 (item : row) : option Q := position_start_width item.

(** Field updates made by the [UPDATE] statements. *)
Definition set_remaining_uses (v : option Z) (r : row) : row :=
  mkRow (item_id r) (name r) (width r) (depth r) (height r) (mass r)
    (priority r) (expiry_date r) (usage_limit r) v (preferred_zone r)
    (container_id r) (position_start_width r) (position_start_depth r)
    (position_start_height r) (position_end_width r) (position_end_depth r)
    (position_end_height r) (is_waste r).

Definition set_is_waste (v : bool) (r : row) : row :=
  mkRow (item_id r) (name r) (width r) (depth r) (height r) (mass r)
    (priority r) (expiry_date r) (usage_limit r) (remaining_uses r)
    (preferred_zone r) (container_id r) (position_start_width r)
    (position_start_depth r) (position_start_height r)
    (position_end_width r) (position_end_depth r) (position_end_height r) v.

Definition set_placement (c : string) (sw sd sh ew ed eh : Q) (r : row)
  : row :=
  mkRow (item_id r) (name r) (width r) (depth r) (height r) (mass r)
    (priority r) (expiry_date r) (usage_limit r) (remaining_uses r)
    (preferred_zone r) (Some c) (Some sw) (Some sd) (Some sh)
    (Some ew) (Some ed) (Some eh) (is_waste r).

End Items.

Module Log.
(** A row of the table [logs]; the generated [log_id], the [timestamp] and
    the free text [details] are left out. *)
Record row : Type := mkRow
  { user_id : option string;
    action_type : string;
    item_id : option string }.
End Log.

Module Store.

(** The three tables behind the shared connection. *)
Record t : Type := mk
  { containers : list Container.t;
    items : list Items.row;
    logs : list Log.row }.

Definition with_items (f : list Items.row -> list Items.row) (db : t) : t :=
  mk (containers db) (f (items db)) (logs db).

(** [UPDATE items SET ... WHERE cond]. *)
Definition update_where (cond : Items.row -> bool)
    (set : Items.row -> Items.row) (db : t) : t :=
  with_items (map (fun r => if cond r then set r else r)) db.

(** [SELECT * FROM items WHERE cond], in table order. *)
Definition select_where (cond : Items.row -> bool) (db : t)
  : list Items.row :=
  filter cond (items db).

(** [SELECT * FROM items WHERE cond] followed by [fetchone()]. *)
Definition fetchone_where (cond : Items.row -> bool) (db : t)
  : option Items.row :=
  find cond (items db).

(** [INSERT INTO items]: [item_id] is the primary key, so a row whose id is
    already there makes the statement raise. *)
Definition insert_item (r : Items.row) (db : t) : option t :=
  if existsb (fun r' => String.eqb (Items.item_id r') (Items.item_id r))
       (items db)
  then None
  else Some (with_items (fun rows => rows ++ [r]) db).

(** [INSERT OR REPLACE INTO containers]. *)
Definition replace_container (c : Container.t) (db : t) : t :=
  mk (filter (fun c' => negb (String.eqb (Container.containerId c')
                                         (Container.containerId c)))
        (containers db) ++ [c])
     (items db) (logs db).

(** [log_action]. *)
Definition log_action (user_id : option string) (action_type : string)
    (item_id : option string) (db : t) : t :=
  mk (containers db) (items db)
     (logs db ++ [Log.mkRow user_id action_type item_id]).

(** The primary key: no two rows of [items] share an id. *)
Definition unique_ids (db : t) : Prop :=
  NoDup (map Items.item_id (items db)).



End Store.

(** ** The placement planner *)

Module Planner.

(** [class PlacementRequest(BaseModel)]. *)
Record PlacementRequest : Type := mkRequest
  { items : list Item.t;
    containers : list Container.t }.

(** An entry of [placements]: [itemId], [containerId] and the start and end
    coordinates of [position]. *)
Record placement : Type := mkPlacement
  { itemId : string;
    containerId : string;
    start_width : Q; start_depth : Q; start_height : Q;
    end_width : Q; end_depth : Q; end_height : Q }.

(** A JSON object of unspecified shape ([Dict]). *)
Definition Dict : Type := list (string * string).

(** [class PlacementResponse(BaseModel)]. *)
Record PlacementResponse : Type := mkResponse
  { success : bool;
    placements : list placement;
    rearrangements : list Dict }.

(** The local dictionary [containers] of [placement_recommendations], from
    a container id to its packer (the [zone] entry is never read). *)
Definition packers : Type := list (string * BinPack.t).

Fixpoint dict_get (d : packers) (k : string) : option BinPack.t :=
  match d with
  | [] => None
  | (k', v) :: d' => if String.eqb k' k then Some v else dict_get d' k
  end.

Fixpoint dict_set (d : packers) (k : string) (v : BinPack.t) : packers :=
  match d with
  | [] => [(k, v)]
  | (k', v') :: d' =>
      if String.eqb k' k then (k, v) :: d' else (k', v') :: dict_set d' k v
  end.

(** The loop that builds a fresh packer for each container of the
    request. *)
Definition init_packers (cs : list Container.t) : packers :=
  fold_left
    (fun d container =>
       dict_set d (Container.containerId container)
         (BinPack.init (Container.width container)
            (Container.height container) (Container.depth container)))
    cs [].

(** The sort key [(-x.priority, x.width * x.height * x.depth)], compared
    as Python compares tuples. *)
Definition key_leb (u v : Item.t) : bool :=
  let vol (i : Item.t) := Item.width i * Item.height i * Item.depth i in
  if (- Item.priority u <? - Item.priority v)%Z then true
  else if (- Item.priority u =? - Item.priority v)%Z
       then Qle_bool (vol u) (vol v)
       else false.

(** The list [rotations]. *)
Definition rotations (item : Item.t) : list (Q * Q * Q) :=
  [ (Item.width item, Item.height item, Item.depth item);
    (Item.width item, Item.depth item, Item.height item);
    (Item.height item, Item.width item, Item.depth item);
    (Item.height item, Item.depth item, Item.width item);
    (Item.depth item, Item.width item, Item.height item);
    (Item.depth item, Item.height item, Item.width item) ].

(** [for rot in rotations]: the first rotation that the packer accepts. *)
Fixpoint try_rotations (bin_packer : BinPack.t) (priority : Z)
    (rots : list (Q * Q * Q)) : option (BinPack.rect * BinPack.t) :=
  match rots with
  | [] => None
  | (r0, r1, r2) :: rest =>
      match BinPack.insert bin_packer r0 r1 r2 priority with
      | Some res => Some res
      | None => try_rotations bin_packer priority rest
      end
  end.

(** [for container in preferred_containers + other_containers]: the first
    container whose packer accepts a rotation of [item], with the
    rectangle and the dictionary after the packer's mutation.  Every id
    looked up is a key, as the dictionary was built from the containers of
    the request. *)
Fixpoint try_containers (item : Item.t) (cs : list Container.t)
    (d : packers) : option (Container.t * BinPack.rect * packers) :=
  match cs with
  | [] => None
  | container :: rest =>
      match dict_get d (Container.containerId container) with
      | None => try_containers item rest d
      | Some bin_packer =>
          match try_rotations bin_packer (Item.priority item)
                  (rotations item) with
          | Some (rect, bin_packer') =>
              Some (container, rect,
                    dict_set d (Container.containerId container) bin_packer')
          | None => try_containers item rest d
          end
      end
  end.

(** The container order tried for [item]. *)
Definition preference (cs : list Container.t) (item : Item.t)
  : list Container.t :=
  filter (fun c => String.eqb (Container.zone c) (Item.preferredZone item)) cs
  ++ filter (fun c => negb (String.eqb (Container.zone c)
                                       (Item.preferredZone item))) cs.

(** The entry appended to [placements]. *)
Definition placement_of (item : Item.t) (container : Container.t)
    (rect : BinPack.rect) : placement :=
  mkPlacement (Item.itemId item) (Container.containerId container)
    (BinPack.x rect) (BinPack.z rect) (BinPack.y rect)
    (BinPack.x rect + BinPack.width rect)
    (BinPack.z rect + BinPack.depth rect)
    (BinPack.y rect + BinPack.height rect).

(** The row inserted into [items]. *)
Definition row_of (item : Item.t) (container : Container.t)
    (rect : BinPack.rect) : Items.row :=
  Items.mkRow (Item.itemId item) (Item.name item) (Item.width item)
    (Item.depth item) (Item.height item) (Item.mass item)
    (Item.priority item) (Item.expiryDate item) (Item.usageLimit item)
    (Item.usageLimit item) (Item.preferredZone item)
    (Some (Container.containerId container))
    (Some (BinPack.x rect)) (Some (BinPack.z rect)) (Some (BinPack.y rect))
    (Some (BinPack.x rect + BinPack.width rect))
    (Some (BinPack.z rect + BinPack.depth rect))
    (Some (BinPack.y rect + BinPack.height rect))
    false.

(** [for item in sorted_items], from the state [(d, placements, db)]; the
    result is the state at the end of the loop.  An item that no container
    accepts reaches [if not placed: pass]; a placed item whose id is
    already in the table makes [INSERT] raise. *)
Fixpoint place_loop (request_containers : list Container.t)
    (sorted_items : list Item.t) (d : packers) (placements : list placement)
    (db : Store.t) : Store.t * outcome (packers * list placement) :=
  match sorted_items with
  | [] => (db, Ok (d, placements))
  | item :: rest =>
      match try_containers item (preference request_containers item) d with
      | Some (container, rect, d') =>
          match Store.insert_item (row_of item container rect) db with
          | Some db' =>
              place_loop request_containers rest d'
                (placements ++ [placement_of item container rect]) db'
          | None => (db, Err500)
          end
      | None => place_loop request_containers rest d placements db
      end
  end.

(** [placement_recommendations]. *)
Definition placement_recommendations (request : PlacementRequest)
    (db : Store.t) : Store.t * outcome PlacementResponse :=
  let db1 := fold_left (fun s c => Store.replace_container c s)
               (containers request) db in
  let d := init_packers (containers request) in
  let sorted_items := sort_by key_leb (items request) in
  let rearrangements : list Dict := [] in
  match place_loop (containers request) sorted_items d [] db1 with
  | (db', Ok (_, placements)) =>
      (db', Ok (mkResponse true placements rearrangements))
  | (db', Err500) => (db', Err500)
  end.

(** The dimensions of an item are not negative. *)
Definition nonneg_item (item : Item.t) : Prop :=
  0 <= Item.width item /\ 0 <= Item.depth item /\ 0 <= Item.height item.

(** Every packer of the dictionary is in a state reached from an empty
    container by successful inserts. *)
Definition packers_reachable (d : packers) : Prop :=
  Forall (fun kv => exists W H D, BinPack.reachable W H D (snd kv)) d.

End Planner.

(** ** What a planning batch placed *)

Module Placed.

(** [l1] is [l2] with some elements left out, in the same order. *)
Inductive subseq {A : Type} : list A -> list A -> Prop :=
| subseq_nil : subseq [] []
| subseq_skip : forall u l1 l2, subseq l1 l2 -> subseq l1 (u :: l2)
| subseq_take : forall u l1 l2, subseq l1 l2 -> subseq (u :: l1) (u :: l2).

(** An item that was placed, with the container and the rectangle that
    the packer returned. *)
Definition t : Type := (Item.t * Container.t * BinPack.rect)%type.

Definition item (u : t) : Item.t := fst (fst u).
Definition container (u : t) : Container.t := snd (fst u).
Definition rect (u : t) : BinPack.rect := snd u.

Definition placement_of (u : t) : Planner.placement :=
  Planner.placement_of (item u) (container u) (rect u).

Definition row_of (u : t) : Items.row :=
  Planner.row_of (item u) (container u) (rect u).

(** The rectangle has the extents of one of the six rotations of the
    item, and the container is one of the request. *)
Definition well_placed (cs : list Container.t) (u : t) : Prop :=
  In (container u) cs /\
  In (BinPack.width (rect u), BinPack.height (rect u),
      BinPack.depth (rect u))
     (Planner.rotations (item u)).



End Placed.

(** ** Concrete requests *)

Module PlanExamples.

(** An item of width 5, depth 5 and height 6, priority 1. *)
Definition tall_item : Item.t :=
  Item.mk "I1" "I1" 5 5 6 1 1%Z None None "A".

(** A 1 x 1 x 1 container and an item of 2 x 2 x 2 that it cannot hold. *)
Definition small_container : Container.t := Container.mk "C1" "A" 1 1 1.


Definition empty_store : Store.t := Store.mk [] [] [].

End PlanExamples.

Module BatchExamples.

(** Two containers of 100 x 100 x 100, C1 in zone A and C2 in zone B. *)
Definition c1 : Container.t := Container.mk "C1" "A" 100 100 100.
Definition c2 : Container.t := Container.mk "C2" "B" 100 100 100.

(** Two items of 40 x 40 x 40: one of priority 10 that prefers zone A and
    one of priority 90 that prefers zone B. *)
Definition i_low : Item.t :=
  Item.mk "LOW" "low" 40 40 40 1 10%Z None (Some 3%Z) "A".
Definition i_high : Item.t :=
  Item.mk "HIGH" "high" 40 40 40 1 90%Z None None "B".

Definition batch : Planner.PlacementRequest :=
  Planner.mkRequest [i_low; i_high] [c1; c2].

(** The store and the response after planning the batch on an empty
    store. *)
Definition planned : Store.t :=
  fst (Planner.placement_recommendations batch PlanExamples.empty_store).

Definition response : Planner.PlacementResponse :=
  match snd (Planner.placement_recommendations batch
               PlanExamples.empty_store) with
  | Ok r => r
  | Err500 => Planner.mkResponse false [] []
  end.

End BatchExamples.

(** ** Response entries *)

Module Step.
(** An entry of the list returned by [calculate_retrieval_steps]. *)
Record t : Type := mk
  { step : nat;
    action : string;
    itemId : string;
    itemName : string }.
End Step.

Module WasteItem.
(** An entry of [wasteItems] and of [returnItems]: [itemId], [name] and
    [reason] (the [containerId] and [position] entries of [wasteItems] are
    left out). *)
Record t : Type := mk
  { itemId : string;
    name : string;
    reason : string }.
End WasteItem.

Module UsedItem.
(** An entry of [itemsUsed]. *)
Record t : Type := mk
  { itemId : string;
    name : string;
    remainingUses : option Z }.
End UsedItem.

(** ** The handlers *)

Module Handlers.

(** *** Retrieval steps *)

(** How [ORDER BY ... ASC] compares two values of a nullable REAL column:
    [NULL] sorts first. *)
Definition null_first (u v : option Q) : comparison :=
  match u, v with
  | None, None => Eq
  | None, Some _ => Lt
  | Some _, None => Gt
  | Some a, Some b => a ?= b
  end.

(** Lexicographic combination of two comparisons. *)
Definition lex (c1 c2 : comparison) : comparison :=
  match c1 with Eq => c2 | _ => c1 end.

(** [ORDER BY position_start_depth ASC, position_start_height ASC,
    position_start_width ASC]. *)
Definition position_order (r1 r2 : Items.row) : comparison :=
  lex (null_first (Items.position_start_depth r1)
         (Items.position_start_depth r2))
    (lex (null_first (Items.position_start_height r1)
            (Items.position_start_height r2))
       (null_first (Items.position_start_width r1)
          (Items.position_start_width r2))).

Definition position_leb (r1 r2 : Items.row) : bool :=
  match position_order r1 r2 with Gt => false | _ => true end.

(** The condition [container_id = ? AND is_waste = 0]. *)
Definition in_container (container_id : string) (r : Items.row) : bool :=
  match Items.container_id r with
  | Some c => String.eqb c container_id
  | None => false
  end
  && negb (Items.is_waste r).

(** [get_items_in_container]. *)
Definition get_items_in_container (db : Store.t) (container_id : string)
  : list Items.row :=
  sort_by position_leb (Store.select_where (in_container container_id) db).

(** The Python comparison [u < v] of two values read from a nullable TEXT
    column; comparing with [None] raises [TypeError], which is the result
    [None] here. *)
Definition py_lt (u v : option string) : option bool :=
  match u, v with
  | Some s1, Some s2 => Some (String.ltb s1 s2)
  | _, _ => None
  end.

(** The second loop of [calculate_retrieval_steps]; [None] when the
    comparison raises. *)
Fixpoint steps_loop (items : list Items.row) (target_depth : option string)
    (steps : list Step.t) : option (list Step.t) :=
  match items with
  | [] => Some steps
  | item :: rest =>
      match py_lt (Items.item_11 item) target_depth with
      | None => None
      | Some true =>
          steps_loop rest target_depth
            (steps ++ [Step.mk (List.length steps + 1) "remove"
                         (Items.item_0 item) (Items.item_1 item)])
      | Some false => steps_loop rest target_depth steps
      end
  end.

(** [calculate_retrieval_steps]; [None] when it raises. *)
Definition calculate_retrieval_steps (db : Store.t) (container_id : string)
    (target_item_id : string) : option (list Step.t) :=
  let items := get_items_in_container db container_id in
  match find (fun item => String.eqb (Items.item_0 item) target_item_id)
          items with
  | None => Some []
  | Some target_item =>
      let target_depth := Items.item_11 target_item in
      steps_loop items target_depth []
  end.



(** *** Waste *)

(** [check_item_expiry], where [current_date] is the UTC day of the
    call. *)
Definition check_item_expiry (current_date : Date.t) (db : Store.t)
  : Store.t :=
  Store.update_where
    (fun r =>
       match Items.expiry_date r with
       | Some e => Date.leb e current_date && negb (Items.is_waste r)
       | None => false
       end)
    (Items.set_is_waste true) db.

(** [mark_depleted_items]. *)
Definition mark_depleted_items (db : Store.t) : Store.t :=
  Store.update_where
    (fun r =>
       match Items.usage_limit r, Items.remaining_uses r with
       | Some _, Some n => (n <=? 0)%Z && negb (Items.is_waste r)
       | _, _ => false
       end)
    (Items.set_is_waste true) db.

(** The expression ['Expired' if item[7] and ... <= datetime.utcnow().date()
    else 'Out of Uses']. *)
Definition reason_of (today : Date.t) (item : Items.row) : string :=
  match Items.item_7 item with
  | Some e => if Date.leb e today then "Expired" else "Out of Uses"
  | None => "Out of Uses"
  end.

Definition waste_entry (today : Date.t) (item : Items.row) : WasteItem.t :=
  WasteItem.mk (Items.item_0 item) (Items.item_1 item) (reason_of today item).

(** [identify_waste], called on the UTC day [today]: the store after the
    two updates and the list [wasteItems]. *)
Definition identify_waste (today : Date.t) (db : Store.t)
  : Store.t * list WasteItem.t :=
  let db1 := check_item_expiry today db in
  let db2 := mark_depleted_items db1 in
  (db2, map (waste_entry today) (Store.select_where Items.is_waste db2)).

(** [class ReturnPlanRequest(BaseModel)] (the undocking date is only
    echoed). *)
Record ReturnPlanRequest : Type := mkReturnPlanRequest
  { undockingContainerId : string;
    maxWeight : Q }.

(** The part of [returnManifest] that the selection loop computes. *)
Record ReturnManifest : Type := mkReturnManifest
  { returnItems : list WasteItem.t;
    totalWeight : Z }.

(** The first loop of [waste_return_plan], from the locals [total_weight]
    and [return_items].  The running total adds [item[6]]. *)
Fixpoint return_loop (today : Date.t) (maxWeight : Q)
    (waste_items : list Items.row) (total_weight : Z)
    (return_items : list WasteItem.t) : ReturnManifest :=
  match waste_items with
  | [] => mkReturnManifest return_items total_weight
  | item :: rest =>
      if Qltb maxWeight (inject_Z (total_weight + Items.item_6 item))
      then return_loop today maxWeight rest total_weight return_items
      else return_loop today maxWeight rest
             (total_weight + Items.item_6 item)%Z
             (return_items ++ [waste_entry today item])
  end.

(** [ORDER BY mass DESC]. *)
Definition mass_desc (u v : Items.row) : bool :=
  Qle_bool (Items.mass v) (Items.mass u).

(** [waste_return_plan]: the manifest ([returnPlan], [retrievalSteps] and
    [totalVolume] are left out). *)
Definition waste_return_plan (request : ReturnPlanRequest) (today : Date.t)
    (db : Store.t) : ReturnManifest :=
  let waste_items :=
    sort_by mass_desc (Store.select_where Items.is_waste db) in
  return_loop today (maxWeight request) waste_items 0%Z [].

(** *** Retrieval *)

(** [class RetrieveRequest(BaseModel)]. *)
Record RetrieveRequest : Type := mkRetrieveRequest
  { r_itemId : string;
    r_userId : string }.

Definition has_id (id : string) (r : Items.row) : bool :=
  String.eqb (Items.item_id r) id.

(** [retrieve_item]. *)
Definition retrieve_item (request : RetrieveRequest) (db : Store.t)
  : Store.t * outcome bool :=
  match Store.fetchone_where (has_id (r_itemId request)) db with
  | None => (db, Err500)
  | Some item =>
      let db1 :=
        match Items.item_9 item with
        | Some uses =>
            let new_uses := (uses - 1)%Z in
            Store.update_where (has_id (r_itemId request))
              (Items.set_remaining_uses (Some new_uses)) db
        | None => db
        end in
      (Store.log_action (Some (r_userId request)) "retrieval"
         (Some (r_itemId request)) db1,
       Ok true)
  end.

(** *** Manual placement *)

(** [class Position(BaseModel)]: two dictionaries from axis names to
    floats. *)
Record Position : Type := mkPosition
  { startCoordinates : list (string * Q);
    endCoordinates : list (string * Q) }.

(** [class PlaceRequest(BaseModel)]. *)
Record PlaceRequest : Type := mkPlaceRequest
  { p_itemId : string;
    p_userId : string;
    p_containerId : string;
    position : Position }.

(** [d[k]]; [None] is a [KeyError]. *)
Fixpoint lookup (d : list (string * Q)) (k : string) : option Q :=
  match d with
  | [] => None
  | (k', v) :: d' => if String.eqb k' k then Some v else lookup d' k
  end.

(** [place_item].  The parameters of the [UPDATE] are read first; the
    statement itself has no condition other than the item id. *)
Definition place_item (request : PlaceRequest) (db : Store.t)
  : Store.t * outcome bool :=
  let s := startCoordinates (position request) in
  let e := endCoordinates (position request) in
  match lookup s "width", lookup s "depth", lookup s "height",
        lookup e "width", lookup e "depth", lookup e "height" with
  | Some sw, Some sd, Some sh, Some ew, Some ed, Some eh =>
      let db1 :=
        Store.update_where (has_id (p_itemId request))
          (Items.set_placement (p_containerId request) sw sd sh ew ed eh)
          db in
      (Store.log_action (Some (p_userId request)) "placement"
         (Some (p_itemId request)) db1,
       Ok true)
  | _, _, _, _, _, _ => (db, Err500)
  end.

(** *** Simulation *)

(** An entry of [itemsToBeUsedPerDay], read with [.get('itemId')] and
    [.get('name')]. *)
Record Usage : Type := mkUsage
  { u_itemId : option string;
    u_name : option string }.

(** [class SimulateRequest(BaseModel)]; [toTimestamp] is kept as the day
    it denotes. *)
Record SimulateRequest : Type := mkSimulateRequest
  { numOfDays : option Z;
    toTimestamp : option Date.t;
    itemsToBeUsedPerDay : list Usage }.

(** The dictionary [changes] of the response, with [newDate]. *)
Record SimulateResponse : Type := mkSimulateResponse
  { newDate : Date.t;
    itemsUsed : list UsedItem.t;
    itemsExpired : list (string * string);
    itemsDepletedToday : list (string * string) }.

(** The row that one entry of the usage list selects. *)
Definition usage_target (u : Usage) (db : Store.t) : option Items.row :=
  match u_itemId u with
  | Some id =>
      if String.eqb id EmptyString
      then match u_name u with
           | Some n =>
               Store.fetchone_where (fun r => String.eqb (Items.name r) n) db
           | None => None
           end
      else Store.fetchone_where (has_id id) db
  | None =>
      match u_name u with
      | Some n =>
          Store.fetchone_where (fun r => String.eqb (Items.name r) n) db
      | None => None
      end
  end.

(** [for item_usage in request.itemsToBeUsedPerDay], from the store [db]
    and the lists [items_used] and [items_depleted]. *)
Fixpoint usage_loop (usages : list Usage) (db : Store.t)
    (items_used : list UsedItem.t) (items_depleted : list (string * string))
  : Store.t * list UsedItem.t * list (string * string) :=
  match usages with
  | [] => (db, items_used, items_depleted)
  | item_usage :: rest =>
      match usage_target item_usage db with
      | Some item =>
          match Items.item_9 item with
          | Some uses =>
              let new_uses := (uses - 1)%Z in
              let db1 :=
                Store.update_where (has_id (Items.item_0 item))
                  (Items.set_remaining_uses (Some new_uses)) db in
              let items_depleted1 :=
                if (new_uses <=? 0)%Z
                then items_depleted
                     ++ [(Items.item_0 item, Items.item_1 item)]
                else items_depleted in
              usage_loop rest db1
                (items_used
                 ++ [UsedItem.mk (Items.item_0 item) (Items.item_1 item)
                       (Some new_uses)])
                items_depleted1
          | None =>
              usage_loop rest db
                (items_used
                 ++ [UsedItem.mk (Items.item_0 item) (Items.item_1 item)
                       None])
                items_depleted
          end
      | None => usage_loop rest db items_used items_depleted
      end
  end.

(** The day [new_date.date()]; [None] when neither field is given. *)
Definition new_date_of (request : SimulateRequest) (current_date : Date.t)
  : option Date.t :=
  match numOfDays request with
  | Some n =>
      if (n =? 0)%Z
      then toTimestamp request
      else Some (Date.add_days current_date n)
  | None => toTimestamp request
  end.

(** [simulate_day], called on the UTC day [current_date].  The day
    [new_date] is used for the list [itemsExpired] and returned; the
    expiry check is [check_item_expiry], on the day of the call. *)
Definition simulate_day (request : SimulateRequest) (current_date : Date.t)
    (db : Store.t) : Store.t * outcome SimulateResponse :=
  match new_date_of request current_date with
  | None => (db, Err500)
  | Some new_date =>
      match usage_loop (itemsToBeUsedPerDay request) db [] [] with
      | (db1, items_used, items_depleted) =>
          let db2 := check_item_expiry current_date db1 in
          let expired_items :=
            Store.select_where
              (fun r =>
                 Items.is_waste r
                 && match Items.expiry_date r with
                    | Some e => Date.leb e new_date
                    | None => false
                    end) db2 in
          (db2,
           Ok (mkSimulateResponse new_date items_used
                 (map (fun r => (Items.item_id r, Items.name r))
                    expired_items)
                 items_depleted))
      end
  end.

(** *** Sequences of usage operations *)




End Handlers.

(** ** Undocking and sequences of requests *)

Module Lifecycle.

(** [complete_undocking]: the store after [DELETE FROM items WHERE
    is_waste = 1] and the log entry, and [itemsRemoved], the row count of
    the statement.  The request is only quoted in the log text. *)
Definition complete_undocking (db : Store.t) : Store.t * nat :=
  let count := List.length (Store.select_where Items.is_waste db) in
  (Store.log_action None "undocking" None
     (Store.with_items (filter (fun r => negb (Items.is_waste r))) db),
   count).

(** The requests that write to the table of items, undocking apart. *)
Inductive op : Type :=
| Plan (request : Planner.PlacementRequest)
| Retrieve (request : Handlers.RetrieveRequest)
| Place (request : Handlers.PlaceRequest)
| Identify (today : Date.t)
| Simulate (request : Handlers.SimulateRequest) (today : Date.t).

(** The store that a request leaves, whether it succeeds or fails. *)
Definition run (o : op) (db : Store.t) : Store.t :=
  match o with
  | Plan request => fst (Planner.placement_recommendations request db)
  | Retrieve request => fst (Handlers.retrieve_item request db)
  | Place request => fst (Handlers.place_item request db)
  | Identify today => fst (Handlers.identify_waste today db)
  | Simulate request today => fst (Handlers.simulate_day request today db)
  end.

Definition run_all (ops : list op) (db : Store.t) : Store.t :=
  fold_left (fun s o => run o s) ops db.

(** [r'] is the row [r] later on: the attributes of the item are the same,
    and the waste flag has not been cleared. *)
Definition same_item (r r' : Items.row) : Prop :=
  Items.item_id r' = Items.item_id r /\
  Items.name r' = Items.name r /\
  Items.width r' = Items.width r /\
  Items.depth r' = Items.depth r /\
  Items.height r' = Items.height r /\
  Items.mass r' = Items.mass r /\
  Items.priority r' = Items.priority r /\
  Items.expiry_date r' = Items.expiry_date r /\
  Items.usage_limit r' = Items.usage_limit r /\
  Items.preferred_zone r' = Items.preferred_zone r /\
  (Items.is_waste r = true -> Items.is_waste r' = true).

(** The rows of [db] are still there in [db'], in the same order and each
    related to its earlier state by [R], possibly followed by new rows. *)
Definition evolves (R : Items.row -> Items.row -> Prop) (db db' : Store.t)
  : Prop :=
  exists kept added,
    Store.items db' = kept ++ added /\ Forall2 R (Store.items db) kept.

(** [r'] is [r] except perhaps for the remaining uses. *)
Definition same_but_uses (r r' : Items.row) : Prop :=
  Items.set_remaining_uses None r' = Items.set_remaining_uses None r.

End Lifecycle.

(** ** Concrete stores *)

Module StoreExamples.

(** An item placed in container C1 across its whole face, from depth [sd]
    to depth [ed]. *)
Definition slab (id : string) (sd ed : Q) : Items.row :=
  Items.mkRow id id 100 50 100 1 1%Z None None None "A" (Some "C1"%string)
    (Some 0) (Some sd) (Some 0) (Some 100) (Some ed) (Some 100) false.


(** An unplaced item with the given mass, priority, expiry, usage limit,
    remaining uses and waste flag. *)
Definition loose (id : string) (mass : Q) (priority : Z)
    (expiry : option Date.t) (limit uses : option Z) (waste : bool)
  : Items.row :=
  Items.mkRow id id 1 1 1 mass priority expiry limit uses "A" None
    None None None None None None waste.

(** The box that the position columns of a row describe, in the axes of
    the packer ([x] across, [y] up, [z] into the container). *)
Definition box_of (r : Items.row) : option BinPack.rect :=
  match Items.position_start_width r, Items.position_start_depth r,
        Items.position_start_height r, Items.position_end_width r,
        Items.position_end_depth r, Items.position_end_height r with
  | Some sw, Some sd, Some sh, Some ew, Some ed, Some eh =>
      Some (BinPack.mkRect sw sh sd (ew - sw) (eh - sh) (ed - sd))
  | _, _, _, _, _, _ => None
  end.


(** Four waste items of masses 30, 20, 15 and 5, each of priority 1. *)
Definition four_waste : Store.t :=
  Store.mk []
    [ loose "W30" 30 1 None None None true;
      loose "W20" 20 1 None None None true;
      loose "W15" 15 1 None None None true;
      loose "W5" 5 1 None None None true ] [].



(** Container C1 of 100 x 150 x 100 with item A in its first 50 of depth,
    and an unplaced item B. *)
Definition one_placed : Store.t :=
  Store.mk [Container.mk "C1" "A" 100 150 100]
    [slab "A" 0 50; loose "B" 1 1 None None None false] [].

(** A request to place B where A is, reaching beyond the container. *)
Definition clash : Handlers.PlaceRequest :=
  Handlers.mkPlaceRequest "B" "U" "C1"
    (Handlers.mkPosition
       [("width"%string, 0); ("depth"%string, 0); ("height"%string, 0)]
       [("width"%string, 200); ("depth"%string, 50);
        ("height"%string, 100)]).

End StoreExamples.

Module LifecycleExamples.

(** An item E that expired on 2025-01-01, an item F that expires on
    2999-01-01 with two of three uses left, and an item D with its single
    use taken. *)
Definition item_e : Items.row :=
  StoreExamples.loose "E" 1 1 (Some (Date.ymd 2025 1 1)) None None false.
Definition item_f : Items.row :=
  StoreExamples.loose "F" 1 1 (Some (Date.ymd 2999 1 1)) (Some 3%Z)
    (Some 2%Z) false.
Definition item_d : Items.row :=
  StoreExamples.loose "D" 1 1 None (Some 1%Z) (Some 0%Z) false.

Definition mixed : Store.t := Store.mk [] [item_e; item_f; item_d] [].

End LifecycleExamples.

(** * Properties *)

(** ** Comparisons *)

Lemma Qltb_lt (a b : Q) : Qltb a b = true <-> a < b.
Proof.
  unfold Qltb. rewrite negb_true_iff. split; intro H.
  - apply Qnot_le_lt. intro Hle. apply Qle_bool_iff in Hle. congruence.
  - destruct (Qle_bool b a) eqn:E; [|reflexivity].
    apply Qle_bool_iff in E. lra.
Qed.

Lemma Qltb_ge (a b : Q) : Qltb a b = false <-> b <= a.
Proof.
  unfold Qltb. rewrite negb_false_iff. apply Qle_bool_iff.
Qed.

(** ** The scan of [insert] *)

Section Scan.
Import BinPack.
Variables (a b c : Q) (p : Z).

Lemma scan_inv_step (done : list rect) (f : rect) (bst : best) :
  scan_inv a b c p done bst ->
  scan_inv a b c p (done ++ [f])
    (if fits f a b c
     then if improves (score_by_priority f p) bst
          then Some (score_by_priority f p, f, List.length done) else bst
     else bst).
Proof.
  intros Hinv.
  assert (Hlast : forall j g, nth_error (done ++ [f]) j = Some g ->
            (nth_error done j = Some g /\ (j < List.length done)%nat)
            \/ (j = List.length done /\ g = f)).
  { intros j g Hj. destruct (Nat.lt_ge_cases j (List.length done)) as [Hlt|Hge].
    - left. rewrite nth_error_app1 in Hj by exact Hlt. auto.
    - right. rewrite nth_error_app2 in Hj by exact Hge.
      destruct (j - List.length done)%nat eqn:E; simpl in Hj.
      + inversion Hj. split; [lia|reflexivity].
      + destruct n; discriminate. }
  destruct (fits f a b c) eqn:Hf.
  - destruct bst as [[[s g] i]|]; simpl.
    + destruct Hinv as (Hnth & Hg & Hs & Hmin & Hfirst).
      destruct (Qltb (score_by_priority f p) s) eqn:Hlt.
      * apply Qltb_lt in Hlt. simpl.
        split; [rewrite nth_error_app2, Nat.sub_diag by lia; reflexivity|].
        split; [exact Hf|]. split; [reflexivity|]. split.
        -- intros j h Hj Hh. destruct (Hlast _ _ Hj) as [[Hj' _]|[_ ->]].
           ++ specialize (Hmin _ _ Hj' Hh). lra.
           ++ lra.
        -- intros j h Hj Hh Hji. destruct (Hlast _ _ Hj) as [[Hj' _]|[-> _]].
           ++ specialize (Hmin _ _ Hj' Hh). lra.
           ++ lia.
      * apply Qltb_ge in Hlt. simpl.
        assert (Hi : (i < List.length done)%nat)
          by (apply nth_error_Some; congruence).
        split; [rewrite nth_error_app1 by exact Hi; exact Hnth|].
        split; [exact Hg|]. split; [exact Hs|]. split.
        -- intros j h Hj Hh. destruct (Hlast _ _ Hj) as [[Hj' _]|[_ ->]].
           ++ eauto.
           ++ exact Hlt.
        -- intros j h Hj Hh Hji. destruct (Hlast _ _ Hj) as [[Hj' _]|[-> _]].
           ++ eauto.
           ++ lia.
    + simpl. split; [rewrite nth_error_app2, Nat.sub_diag by lia; reflexivity|].
      split; [exact Hf|]. split; [reflexivity|]. split.
      * intros j h Hj Hh. destruct (Hlast _ _ Hj) as [[Hj' _]|[_ ->]].
        -- apply nth_error_In in Hj'. apply Hinv in Hj'. congruence.
        -- lra.
      * intros j h Hj Hh Hji. destruct (Hlast _ _ Hj) as [[Hj' _]|[-> _]].
        -- apply nth_error_In in Hj'. apply Hinv in Hj'. congruence.
        -- lia.
  - destruct bst as [[[s g] i]|]; simpl.
    + destruct Hinv as (Hnth & Hg & Hs & Hmin & Hfirst).
      assert (Hi : (i < List.length done)%nat)
        by (apply nth_error_Some; congruence).
      split; [rewrite nth_error_app1 by exact Hi; exact Hnth|].
      split; [exact Hg|]. split; [exact Hs|]. split.
      * intros j h Hj Hh. destruct (Hlast _ _ Hj) as [[Hj' _]|[_ ->]].
        -- eauto.
        -- congruence.
      * intros j h Hj Hh Hji. destruct (Hlast _ _ Hj) as [[Hj' _]|[-> _]].
        -- eauto.
        -- lia.
    + intros h Hh. apply in_app_or in Hh. destruct Hh as [Hh|[<-|[]]].
      * auto.
      * exact Hf.
Qed.

Lemma scan_spec_gen (rest done : list rect) (bst : best) :
  scan_inv a b c p done bst ->
  scan_inv a b c p (done ++ rest) (scan a b c p rest (List.length done) bst).
Proof.
  revert done bst. induction rest as [|f rest IH]; intros done bst Hinv.
  - rewrite app_nil_r. exact Hinv.
  - simpl. apply (scan_inv_step done f) in Hinv.
    specialize (IH (done ++ [f]) _ Hinv).
    rewrite <- app_assoc in IH. simpl in IH.
    rewrite length_app in IH. simpl in IH.
    replace (List.length done + 1)%nat with (S (List.length done)) in IH by lia.
    exact IH.
Qed.

Lemma scan_spec (frs : list rect) :
  scan_inv a b c p frs (scan a b c p frs 0 None).
Proof.
  apply (scan_spec_gen frs [] None). simpl. intros f [].
Qed.

End Scan.

(** ** Lists *)

Lemma FOP_app {A : Type} (R : A -> A -> Prop) (l1 l2 : list A) :
  ForallOrdPairs R (l1 ++ l2) <->
  ForallOrdPairs R l1 /\ ForallOrdPairs R l2 /\
  (forall u v, In u l1 -> In v l2 -> R u v).
Proof.
  induction l1 as [|h l1 IH]; simpl.
  - split.
    + intro H. split; [constructor|]. split; [exact H|]. intros u v [].
    + intros (_ & H & _). exact H.
  - split.
    + intro H. inversion H as [|? ? Hh Ht]; subst.
      apply IH in Ht. destruct Ht as (H1 & H2 & H12).
      rewrite Forall_app in Hh. destruct Hh as [Hh1 Hh2].
      split; [constructor; assumption|]. split; [exact H2|].
      intros u v [<-|Hu] Hv.
      * rewrite Forall_forall in Hh2. auto.
      * auto.
    + intros (H1 & H2 & H12). inversion H1 as [|? ? Hh Ht]; subst.
      constructor.
      * rewrite Forall_app. split; [exact Hh|].
        rewrite Forall_forall. intros v Hv. apply H12; auto.
      * apply IH. split; [exact Ht|]. split; [exact H2|].
        intros u v Hu Hv. apply H12; auto.
Qed.

Lemma del_split {A : Type} (l : list A) (i : nat) (f : A) :
  nth_error l i = Some f ->
  exists l1 l2, l = l1 ++ f :: l2 /\ List.length l1 = i /\
    forall extra, BinPack.del (l ++ extra) i = l1 ++ l2 ++ extra.
Proof.
  revert i. induction l as [|h l IH]; intros [|i] Hi; simpl in Hi;
    try discriminate.
  - inversion Hi; subst. exists [], l. repeat split.
  - destruct (IH _ Hi) as (l1 & l2 & -> & Hlen & Hdel).
    exists (h :: l1), l2. split; [reflexivity|]. split; [simpl; lia|].
    intro extra. simpl. rewrite Hdel. reflexivity.
Qed.

(** ** Geometry *)

Section Geometry.
Import BinPack.

Lemma interiors_disjoint_sym (u v : rect) :
  interiors_disjoint u v -> interiors_disjoint v u.
Proof.
  intros H (px & py & pz & Hv & Hu). apply H. exists px, py, pz. auto.
Qed.

Lemma interiors_disjoint_within (u F v : rect) :
  within u F -> interiors_disjoint F v -> interiors_disjoint u v.
Proof.
  intros Hw Hd (px & py & pz & Hu & Hv). apply Hd.
  exists px, py, pz. split; [|exact Hv].
  unfold within, in_interior in *. lra.
Qed.

Lemma within_trans (u v w : rect) : within u v -> within v w -> within u w.
Proof. unfold within. intros. lra. Qed.

Lemma fits_le (F : rect) (a b c : Q) :
  fits F a b c = true -> a <= width F /\ b <= height F /\ c <= depth F.
Proof.
  unfold fits. rewrite !andb_true_iff, !Qle_bool_iff. tauto.
Qed.

Lemma splits_lt (F : rect) (a b c : Q) :
  splits F a b c = true <-> a < width F /\ b < height F /\ c < depth F.
Proof.
  unfold splits. rewrite !andb_true_iff, !Qltb_lt. split; intros; lra.
Qed.

(** The box placed at the origin corner of a cuboid that fits it, and the
    residual cuboids, lie within that cuboid. *)
Lemma placed_within (F : rect) (a b c : Q) :
  0 <= a -> 0 <= b -> 0 <= c -> fits F a b c = true ->
  within (mkRect (x F) (y F) (z F) a b c) F.
Proof.
  intros Ha Hb Hc Hf. apply fits_le in Hf. unfold within; simpl. lra.
Qed.

Lemma residuals_within (F : rect) (a b c : Q) :
  0 <= a -> 0 <= b -> 0 <= c -> fits F a b c = true ->
  Forall (fun r => within r F) (residuals F a b c).
Proof.
  intros Ha Hb Hc Hf. apply fits_le in Hf.
  unfold residuals. repeat constructor; simpl; lra.
Qed.

Lemma residuals_disjoint (F : rect) (a b c : Q) :
  pairwise_disjoint (residuals F a b c).
Proof.
  unfold residuals, pairwise_disjoint.
  repeat constructor;
    intros (px & py & pz & H1 & H2); unfold in_interior in *; simpl in *; lra.
Qed.

Lemma residuals_disjoint_placed (F : rect) (a b c : Q) :
  Forall (fun r => interiors_disjoint r (mkRect (x F) (y F) (z F) a b c))
    (residuals F a b c).
Proof.
  unfold residuals.
  repeat constructor;
    intros (px & py & pz & H1 & H2); unfold in_interior in *; simpl in *; lra.
Qed.

End Geometry.

(** ** The invariant of the packer *)

Section PackerInvariant.
Import BinPack.

Lemma pack_inv_init (W H D : Q) :
  pack_inv (mkRect 0 0 0 W H D) (init W H D).
Proof.
  unfold pack_inv, init; simpl. repeat split.
  - constructor.
  - repeat constructor.
  - intros f u _ [].
  - constructor.
  - repeat constructor; simpl; lra.
Qed.

(** What a successful [insert] does, with the chosen cuboid exposed. *)
Lemma insert_shape (self self' : t) (a b c : Q) (p : Z) (new_rect : rect) :
  insert self a b c p = Some (new_rect, self') ->
  exists F l1 l2,
    free_rectangles self = l1 ++ F :: l2 /\
    fits F a b c = true /\
    new_rect = mkRect (x F) (y F) (z F) a b c /\
    used_rectangles self' = used_rectangles self ++ [new_rect] /\
    free_rectangles self' =
      l1 ++ l2 ++ (if splits F a b c then residuals F a b c else []).
Proof.
  unfold insert. intro Hins.
  pose proof (scan_spec a b c p (free_rectangles self)) as Hscan.
  destruct (scan a b c p (free_rectangles self) 0 None)
    as [[[s F] i]|]; [|discriminate].
  destruct Hscan as (Hnth & Hfit & _).
  destruct (del_split _ _ _ Hnth) as (l1 & l2 & Hfree & _ & Hdel).
  inversion Hins; subst; clear Hins. simpl.
  exists F, l1, l2. repeat split; try assumption.
  destruct (splits F a b c).
  - apply Hdel.
  - specialize (Hdel []). rewrite app_nil_r in Hdel. exact Hdel.
Qed.

Lemma pack_inv_insert (C : rect) (self self' : t) (a b c : Q) (p : Z)
    (new_rect : rect) :
  pack_inv C self -> 0 <= a -> 0 <= b -> 0 <= c ->
  insert self a b c p = Some (new_rect, self') ->
  pack_inv C self'.
Proof.
  intros (Hu & Hf & Hfu & Hwu & Hwf) Ha Hb Hc Hins.
  destruct (insert_shape _ _ _ _ _ _ _ Hins)
    as (F & l1 & l2 & Hfree & Hfit & Hnew & Hused' & Hfree').
  unfold pack_inv. rewrite Hused', Hfree'. rewrite Hfree in *.
  clear Hins Hused' Hfree' Hfree.
  set (extra := if splits F a b c then residuals F a b c else []).
  assert (Hnw : within new_rect F) by (subst; apply placed_within; assumption).
  assert (Hew : Forall (fun r => within r F) extra).
  { unfold extra. destruct (splits F a b c);
      [apply residuals_within; assumption|constructor]. }
  assert (Hed : pairwise_disjoint extra).
  { unfold extra. destruct (splits F a b c);
      [apply residuals_disjoint|constructor]. }
  assert (Hen : Forall (fun r => interiors_disjoint r new_rect) extra).
  { unfold extra. subst new_rect. destruct (splits F a b c);
      [apply residuals_disjoint_placed|constructor]. }
  rewrite Forall_forall in Hew, Hen.
  apply FOP_app in Hf. destruct Hf as (Hl1 & HFl2 & Hx).
  inversion HFl2 as [|? ? HF2 Hl2]; subst a0 l.
  rewrite Forall_forall in HF2.
  assert (HF1 : forall u, In u l1 -> interiors_disjoint F u).
  { intros u Hu1. apply interiors_disjoint_sym. apply Hx; simpl; auto. }
  assert (HFu : forall u, In u (used_rectangles self) ->
                          interiors_disjoint F u).
  { intros u Hin. apply Hfu; [|exact Hin]. apply in_or_app. simpl. auto. }
  rewrite Forall_app in Hwf. destruct Hwf as [Hw1 HwF2].
  inversion HwF2 as [|? ? HwF Hw2]; subst.
  repeat split.
  - (* occupied boxes *)
    apply FOP_app. split; [exact Hu|]. split; [repeat constructor|].
    intros u v Hin [<-|[]]. apply interiors_disjoint_sym.
    eapply interiors_disjoint_within; eauto.
  - (* free cuboids *)
    apply FOP_app. split; [exact Hl1|]. split.
    + apply FOP_app. split; [exact Hl2|]. split; [exact Hed|].
      intros u v Hin2 Hine. apply interiors_disjoint_sym.
      eapply interiors_disjoint_within; eauto.
    + intros u v Hin1 Hin. apply in_app_or in Hin. destruct Hin as [Hin|Hin].
      * apply Hx; simpl; auto.
      * apply interiors_disjoint_sym.
        eapply interiors_disjoint_within; eauto.
  - (* free against occupied *)
    intros f u Hinf Hinu.
    apply in_app_or in Hinu. destruct Hinu as [Hinu|[<-|[]]];
      apply in_app_or in Hinf; destruct Hinf as [Hinf|Hinf];
      try (apply in_app_or in Hinf; destruct Hinf as [Hinf|Hinf]).
    + apply Hfu; [|exact Hinu]. apply in_or_app. auto.
    + apply Hfu; [|exact Hinu]. apply in_or_app. simpl. auto.
    + eapply interiors_disjoint_within; eauto.
    + apply interiors_disjoint_sym.
      eapply interiors_disjoint_within; eauto.
    + apply interiors_disjoint_sym.
      eapply interiors_disjoint_within; eauto.
    + apply Hen. exact Hinf.
  - rewrite Forall_app. split; [exact Hwu|].
    constructor; [|constructor]. eapply within_trans; eauto.
  - rewrite !Forall_app. split; [exact Hw1|]. split; [exact Hw2|].
    rewrite Forall_forall. intros r Hr. eapply within_trans; eauto.
Qed.

Lemma reachable_inv (W H D : Q) (self : t) :
  reachable W H D self -> pack_inv (mkRect 0 0 0 W H D) self.
Proof.
  induction 1 as [|self a b c p new_rect self' Hr IH Ha Hb Hc Hins].
  - apply pack_inv_init.
  - exact (pack_inv_insert _ _ _ _ _ _ _ _ IH Ha Hb Hc Hins).
Qed.

End PackerInvariant.

(** ** Concrete runs of the packer *)

Section PackerRuns.
Import BinPack PackExamples.

Example one_box_state :
  insert (init 10 10 10) 5 5 5 1 =
  Some (mkRect 0 0 0 5 5 5,
        {| used_rectangles := [mkRect 0 0 0 5 5 5];
           free_rectangles :=
             [ mkRect (0 + 5) 0 0 (10 - 5) 5 5;
               mkRect 0 (0 + 5) 0 10 (10 - 5) 5;
               mkRect 0 0 (0 + 5) 10 10 (10 - 5) ] |}).
Proof. reflexivity. Qed.

Example flush_box_state :
  insert (init 10 10 10) 10 5 5 1 =
  Some (mkRect 0 0 0 10 5 5,
        {| used_rectangles := [mkRect 0 0 0 10 5 5];
           free_rectangles := [] |}).
Proof. reflexivity. Qed.



End PackerRuns.

(** ** Claims about the packer *)

Section PackerClaims.
Import BinPack PackExamples.





(** Every placed box and every free cuboid stays within the container. *)
Lemma reachable_within (W H D : Q) (self : t) :
  reachable W H D self ->
  Forall (fun r => within r (mkRect 0 0 0 W H D))
    (used_rectangles self ++ free_rectangles self).
Proof.
  intro Hr. apply reachable_inv in Hr.
  destruct Hr as (_ & _ & _ & Hu & Hf). rewrite Forall_app. split; assumption.
Qed.




End PackerClaims.

Section PackerChoice.
Import BinPack PackExamples.


(** A box that leaves no remaining width makes the packer drop the chosen
    cuboid without appending any residual, though two of the residuals
    have positive sides. *)
Example flush_box_drops_residuals :
  free_rectangles flush_box = [] /\
  positive_sides (mkRect 0 (0 + 5) 0 10 (10 - 5) 5) /\
  In (mkRect 0 (0 + 5) 0 10 (10 - 5) 5)
     (residuals (mkRect 0 0 0 10 10 10) 10 5 5).
Proof.
  split; [reflexivity|]. split.
  - unfold positive_sides; simpl. lra.
  - simpl. auto.
Qed.



(** [insert] reports no fit exactly when no free cuboid fits. *)
Lemma insert_none (self : t) (a b c : Q) (p : Z) :
  insert self a b c p = None ->
  forall G, In G (free_rectangles self) -> fits G a b c = false.
Proof.
  unfold insert. intro Hins.
  pose proof (scan_spec a b c p (free_rectangles self)) as Hscan.
  destruct (scan a b c p (free_rectangles self) 0 None)
    as [[[s F] i]|]; [discriminate|].
  exact Hscan.
Qed.




End PackerChoice.

(** ** Claims about the planner *)

Section PlannerClaims.
Import Planner PlanExamples.




End PlannerClaims.

(** ** Sorting *)

Section SortBy.
Variables (A : Type) (leb : A -> A -> bool).

Lemma insert_by_In (u v : A) (l : list A) :
  In v (insert_by leb u l) <-> v = u \/ In v l.
Proof.
  induction l as [|w l IH]; simpl.
  - intuition.
  - destruct (leb u w); simpl; [intuition|].
    rewrite IH. intuition.
Qed.

Lemma sort_by_In (v : A) (l : list A) : In v (sort_by leb l) <-> In v l.
Proof.
  induction l as [|u l IH]; simpl.
  - reflexivity.
  - rewrite insert_by_In, IH. intuition.
Qed.

Hypothesis leb_total : forall u v, leb u v = false -> leb v u = true.
Hypothesis leb_trans :
  forall u v w, leb u v = true -> leb v w = true -> leb u w = true.

Lemma insert_by_ascending (u : A) (l : list A) :
  ascending leb l -> ascending leb (insert_by leb u l).
Proof.
  unfold ascending. induction 1 as [|w l Hl IH Hw]; simpl.
  - repeat constructor.
  - destruct (leb u w) eqn:E.
    + constructor; [constructor; assumption|].
      constructor; [exact E|].
      rewrite Forall_forall in *. intros v Hv. eauto.
    + constructor; [exact IH|].
      rewrite Forall_forall in *. intros v Hv.
      apply insert_by_In in Hv. destruct Hv as [->|Hv]; auto.
Qed.

Lemma sort_by_ascending (l : list A) : ascending leb (sort_by leb l).
Proof.
  induction l as [|u l IH]; simpl.
  - constructor.
  - apply insert_by_ascending. exact IH.
Qed.

End SortBy.


(** ** Three-way comparisons *)

Section Comparisons.








End Comparisons.

(** ** Claims about the retrieval steps *)

Section RetrievalClaims.
Import Handlers StoreExamples.


Lemma in_container_true (container_id : string) (r : Items.row) :
  in_container container_id r = true ->
  Items.container_id r = Some container_id /\ Items.is_waste r = false.
Proof.
  unfold in_container. rewrite andb_true_iff, negb_true_iff.
  destruct (Items.container_id r) as [c|]; [|intros [? _]; discriminate].
  intros [Hc Hw]. apply String.eqb_eq in Hc. subst. auto.
Qed.

Lemma ltb_irrefl (s : string) : String.ltb s s = false.
Proof.
  unfold String.ltb. pose proof (String.compare_antisym s s) as H.
  destruct (String.compare s s); simpl in H; congruence.
Qed.

Lemma steps_loop_same_container (c : string) (items : list Items.row)
    (steps : list Step.t) :
  (forall r, In r items -> Items.item_11 r = Some c) ->
  steps_loop items (Some c) steps = Some steps.
Proof.
  induction items as [|r l IH]; simpl; intro Hc; [reflexivity|].
  rewrite (Hc r) by auto. simpl. rewrite ltb_irrefl. apply IH.
  intros r' Hr'. apply Hc. auto.
Qed.

(** X26.  The comparison of [calculate_retrieval_steps] reads [item[11]], the
    container id, on both sides; the rows all come from one container, so
    it never holds and no step is returned. *)
Lemma retrieval_steps_empty (db : Store.t) (container_id target : string) :
  calculate_retrieval_steps db container_id target = Some [].
Proof.
  unfold calculate_retrieval_steps.
  assert (Hc : forall r, In r (get_items_in_container db container_id) ->
                         Items.item_11 r = Some container_id).
  { intros r Hr. unfold get_items_in_container in Hr.
    apply sort_by_In in Hr. apply filter_In in Hr. destruct Hr as [_ Hr].
    apply in_container_true in Hr. tauto. }
  destruct (find _ (get_items_in_container db container_id))
    as [target_item|] eqn:Hfind; [|reflexivity].
  apply find_some in Hfind. destruct Hfind as [Hin _].
  rewrite (Hc _ Hin). apply steps_loop_same_container. exact Hc.
Qed.




End RetrievalClaims.

(** ** Calendar days *)

Example ymd_2025_01_01 : Date.ymd 2025 1 1 = 739252%Z.
Proof. reflexivity. Qed.

Example ymd_2000_03_01 : Date.ymd 2000 3 1 = 730180%Z.
Proof. reflexivity. Qed.

Example ymd_2999_01_01 : Date.ymd 2999 1 1 = 1094998%Z.
Proof. reflexivity. Qed.

(** ** Updates of the table *)

Section Updates.
Import Handlers.

Lemma find_map_same {A : Type} (f : A -> bool) (g : A -> A) (l : list A) :
  (forall a, f (g a) = f a) ->
  find f (map g l) = option_map g (find f l).
Proof.
  intro Hfg. induction l as [|a l IH]; simpl; [reflexivity|].
  rewrite Hfg. destruct (f a); [reflexivity|exact IH].
Qed.


Lemma fetchone_some (cond : Items.row -> bool) (db : Store.t)
    (item : Items.row) :
  Store.fetchone_where cond db = Some item ->
  In item (Store.items db) /\ cond item = true.
Proof. apply find_some. Qed.

Lemma has_id_true (id : string) (r : Items.row) :
  has_id id r = true <-> Items.item_id r = id.
Proof. apply String.eqb_eq. Qed.









End Updates.

(** ** Claims about the lifecycle *)

Section LifecycleClaims.
Import Handlers StoreExamples.


Lemma has_id_set_remaining_uses (id : string) (v : option Z) (r : Items.row) :
  has_id id (Items.set_remaining_uses v r) = has_id id r.
Proof. reflexivity. Qed.

Lemma has_id_set_is_waste (id : string) (v : bool) (r : Items.row) :
  has_id id (Items.set_is_waste v r) = has_id id r.
Proof. reflexivity. Qed.






(** C7 fails on the handler.  The waste items have masses 30, 20, 15 and 5
    and priority 1, and the weight limit is 40.  The running total adds
    [item[6]], the priority, so all four items are included: the total
    reported is 4 and the masses add up to 70. *)
Theorem return_plan_adds_priorities :
  let manifest :=
    waste_return_plan (mkReturnPlanRequest "U1" 40) (Date.ymd 2025 1 2)
      four_waste in
  map WasteItem.itemId (returnItems manifest)
  = ["W30"; "W20"; "W15"; "W5"]%string /\
  totalWeight manifest = 4%Z /\
  map Items.item_6 (Store.items four_waste) = [1; 1; 1; 1]%Z /\
  40 < 30 + 20 + 15 + 5.
Proof.
  repeat split.
Qed.

End LifecycleClaims.

(** ** Claims about expiry and manual placement *)

Section ExpiryAndPlaceClaims.
Import Handlers StoreExamples.




(** C9 fails on the handler: item A fills the first 50 of depth of
    container C1, which is 100 wide; the request to place B in the same
    place, 200 wide, succeeds and the row of B is overwritten. *)
Lemma conflicting_place_is_stored :
  snd (place_item clash one_placed) = Ok true /\
  option_map box_of (Store.fetchone_where (has_id "A") one_placed)
  = Some (Some (BinPack.mkRect 0 0 0 (100 - 0) (100 - 0) (50 - 0))) /\
  option_map box_of (Store.fetchone_where (has_id "B") one_placed)
  = Some None /\
  option_map box_of
    (Store.fetchone_where (has_id "B") (fst (place_item clash one_placed)))
  = Some (Some (BinPack.mkRect 0 0 0 (200 - 0) (100 - 0) (50 - 0))) /\
  BinPack.interiors_overlap
    (BinPack.mkRect 0 0 0 (100 - 0) (100 - 0) (50 - 0))
    (BinPack.mkRect 0 0 0 (200 - 0) (100 - 0) (50 - 0)) /\
  ~ BinPack.within (BinPack.mkRect 0 0 0 (200 - 0) (100 - 0) (50 - 0))
      (BinPack.mkRect 0 0 0 100 100 150).
Proof.
  repeat split.
  - exists 1, 1, 1. unfold BinPack.in_interior; simpl. repeat split; lra.
  - unfold BinPack.within; simpl. lra.
Qed.

(** C9, as the handler has it.  A manual-place request that gives the six
    coordinates succeeds whatever box it asks for, and the row of the item
    then holds the container and the coordinates of the request. *)
Theorem place_item_stores_request (request : PlaceRequest) (db : Store.t)
    (item : Items.row) (sw sd sh ew ed eh : Q) :
  lookup (startCoordinates (position request)) "width" = Some sw ->
  lookup (startCoordinates (position request)) "depth" = Some sd ->
  lookup (startCoordinates (position request)) "height" = Some sh ->
  lookup (endCoordinates (position request)) "width" = Some ew ->
  lookup (endCoordinates (position request)) "depth" = Some ed ->
  lookup (endCoordinates (position request)) "height" = Some eh ->
  Store.fetchone_where (has_id (p_itemId request)) db = Some item ->
  snd (place_item request db) = Ok true /\
  Store.fetchone_where (has_id (p_itemId request))
    (fst (place_item request db))
  = Some (Items.set_placement (p_containerId request) sw sd sh ew ed eh item).
Proof.
  intros H1 H2 H3 H4 H5 H6 Hf. unfold place_item.
  rewrite H1, H2, H3, H4, H5, H6. simpl. split; [reflexivity|].
  unfold Store.fetchone_where in *. simpl.
  rewrite find_map_same.
  - rewrite Hf. simpl. apply fetchone_some in Hf. destruct Hf as [_ Hid].
    rewrite Hid. reflexivity.
  - intro r. destruct (has_id (p_itemId request) r) eqn:E; exact E.
Qed.

Lemma place_item_stores_request_witness :
  snd (place_item clash one_placed) = Ok true /\
  Store.fetchone_where (has_id (p_itemId clash))
    (fst (place_item clash one_placed))
  = Some (Items.set_placement "C1" 0 0 0 200 50 100
            (loose "B" 1 1 None None None false)).
Proof.
  apply (place_item_stores_request clash one_placed
           (loose "B" 1 1 None None None false) 0 0 0 200 50 100);
    reflexivity.
Defined.

End ExpiryAndPlaceClaims.

Section PlannerWitness.
Import Planner PlanExamples.


End PlannerWitness.

(** ** The packers of the planner *)

Section PlannerPackers.
Import Planner.

Lemma dict_set_Forall (P : string * BinPack.t -> Prop) (d : packers)
    (k : string) (v : BinPack.t) :
  Forall P d -> P (k, v) -> Forall P (dict_set d k v).
Proof.
  intros Hd Hv. induction Hd as [|[k' v'] d Hkv Hd IH]; simpl.
  - repeat constructor. exact Hv.
  - destruct (String.eqb k' k); constructor; assumption.
Qed.

Lemma dict_get_Forall (P : BinPack.t -> Prop) (d : packers) (k : string)
    (v : BinPack.t) :
  Forall (fun kv => P (snd kv)) d -> dict_get d k = Some v -> P v.
Proof.
  induction 1 as [|[k' v'] d Hkv Hd IH]; simpl; [discriminate|].
  destruct (String.eqb k' k); [|exact IH].
  intro H. inversion H; subst. exact Hkv.
Qed.

Lemma dict_get_set_key (d : packers) (k k' : string) (v : BinPack.t) :
  dict_get d k' <> None \/ k' = k -> dict_get (dict_set d k v) k' <> None.
Proof.
  induction d as [|[k0 v0] d IH]; simpl; intros [H|H].
  - congruence.
  - subst. rewrite String.eqb_refl. discriminate.
  - destruct (String.eqb k0 k) eqn:E; simpl.
    + apply String.eqb_eq in E. subst k0.
      destruct (String.eqb k k'); [discriminate|exact H].
    + destruct (String.eqb k0 k'); [discriminate|]. apply IH. auto.
  - subst. destruct (String.eqb k0 k) eqn:E; simpl.
    + rewrite String.eqb_refl. discriminate.
    + rewrite E. apply IH. auto.
Qed.

(** The dictionary has a packer for every container of the request, so
    the lookups of the planner do not fail. *)
Lemma init_packers_key (cs : list Container.t) (c : Container.t) :
  In c cs -> dict_get (init_packers cs) (Container.containerId c) <> None.
Proof.
  unfold init_packers.
  assert (H : forall d,
            dict_get d (Container.containerId c) <> None \/ In c cs ->
            dict_get
              (fold_left
                 (fun d container =>
                    dict_set d (Container.containerId container)
                      (BinPack.init (Container.width container)
                         (Container.height container)
                         (Container.depth container))) cs d)
              (Container.containerId c) <> None).
  { induction cs as [|c0 cs IH]; simpl; intros d [Hd|Hin].
    - exact Hd.
    - contradiction.
    - apply IH. left. apply dict_get_set_key. auto.
    - apply IH. destruct Hin as [->|Hin]; [left|right; exact Hin].
      apply dict_get_set_key. auto. }
  intro Hin. apply H. auto.
Qed.

Lemma init_packers_reachable (cs : list Container.t) :
  packers_reachable (init_packers cs).
Proof.
  unfold init_packers, packers_reachable.
  assert (H : forall d,
            Forall (fun kv => exists W H D,
                      BinPack.reachable W H D (snd kv)) d ->
            Forall (fun kv => exists W H D,
                      BinPack.reachable W H D (snd kv))
              (fold_left
                 (fun d container =>
                    dict_set d (Container.containerId container)
                      (BinPack.init (Container.width container)
                         (Container.height container)
                         (Container.depth container))) cs d)).
  { induction cs as [|c cs IH]; simpl; intros d Hd; [exact Hd|].
    apply IH. apply dict_set_Forall; [exact Hd|]. simpl.
    eexists _, _, _. apply BinPack.reach_init. }
  apply H. constructor.
Qed.

Lemma try_rotations_reachable (W H D : Q) (bp bp' : BinPack.t) (p : Z)
    (rots : list (Q * Q * Q)) (rect : BinPack.rect) :
  BinPack.reachable W H D bp ->
  Forall (fun r => 0 <= fst (fst r) /\ 0 <= snd (fst r) /\ 0 <= snd r) rots ->
  try_rotations bp p rots = Some (rect, bp') ->
  BinPack.reachable W H D bp'.
Proof.
  intros Hr Hrots. induction Hrots as [|[[r0 r1] r2] rots Hrot _ IH]; simpl;
    [discriminate|].
  destruct (BinPack.insert bp r0 r1 r2 p) as [[rect' bp'']|] eqn:Hins.
  - intro Heq. inversion Heq; subst. simpl in Hrot.
    eapply BinPack.reach_insert; [exact Hr| | | |exact Hins]; tauto.
  - exact IH.
Qed.

Lemma rotations_nonneg (item : Item.t) :
  nonneg_item item ->
  Forall (fun r => 0 <= fst (fst r) /\ 0 <= snd (fst r) /\ 0 <= snd r)
    (rotations item).
Proof.
  intros (Hw & Hd & Hh). unfold rotations. repeat constructor; assumption.
Qed.

Lemma try_containers_reachable (item : Item.t) (cs : list Container.t)
    (d d' : packers) (container : Container.t) (rect : BinPack.rect) :
  nonneg_item item -> packers_reachable d ->
  try_containers item cs d = Some (container, rect, d') ->
  packers_reachable d'.
Proof.
  intros Hitem Hd. induction cs as [|c cs IH]; cbn [try_containers];
    [discriminate|].
  destruct (dict_get d (Container.containerId c)) as [bp|] eqn:Hget;
    [|exact IH].
  destruct (try_rotations bp (Item.priority item) (rotations item))
    as [[rect' bp']|] eqn:Htry; [|exact IH].
  intro Heq. inversion Heq; subst.
  apply dict_set_Forall; [exact Hd|]. simpl.
  destruct (dict_get_Forall
              (fun v => exists W H D, BinPack.reachable W H D v)
              d _ _ Hd Hget) as (W & H & D & Hr).
  exists W, H, D.
  apply (try_rotations_reachable W H D bp bp' (Item.priority item)
           (rotations item) rect Hr (rotations_nonneg item Hitem) Htry).
Qed.

(** After a planning batch whose items have no negative dimension, the
    boxes placed by each packer are pairwise disjoint. *)
Lemma place_loop_disjoint (cs : list Container.t) (items : list Item.t)
    (d d' : packers) (pls pls' : list placement) (db db' : Store.t) :
  Forall nonneg_item items -> packers_reachable d ->
  place_loop cs items d pls db = (db', Ok (d', pls')) ->
  Forall (fun kv => BinPack.pairwise_disjoint
                      (BinPack.used_rectangles (snd kv))) d'.
Proof.
  intros Hitems. revert d pls db.
  induction Hitems as [|item items Hitem _ IH]; cbn [place_loop];
    intros d pls db Hd.
  - intro Heq. inversion Heq; subst.
    unfold packers_reachable in Hd. rewrite Forall_forall in *.
    intros kv Hkv. destruct (Hd kv Hkv) as (W & H & D & Hr).
    apply reachable_inv in Hr. exact (proj1 Hr).
  - destruct (try_containers item (preference cs item) d)
      as [[[container rect] d1]|] eqn:Htry.
    + destruct (Store.insert_item (row_of item container rect) db)
        as [db1|]; [|discriminate].
      apply IH. eapply try_containers_reachable; eauto.
    + apply IH. exact Hd.
Qed.

End PlannerPackers.

(** * Further properties of the packer *)

Section PackerMore.
Import BinPack PackExamples.



Lemma scan_some (a b c : Q) (p : Z) (frs : list rect) (F : rect) :
  In F frs -> fits F a b c = true -> scan a b c p frs 0 None <> None.
Proof.
  intros HF Hfit Hnone.
  pose proof (scan_spec a b c p frs) as Hscan. rewrite Hnone in Hscan.
  simpl in Hscan. rewrite (Hscan F HF) in Hfit. discriminate.
Qed.

(** X2.  [insert] reports no fit exactly when no free cuboid is at least as
    large as the box on each axis; it does not look at the placed
    boxes. *)
Theorem insert_fails_iff_nothing_fits (self : t) (a b c : Q) (p : Z) :
  insert self a b c p = None <-> advertises self a b c = false.
Proof.
  split.
  - intro Hnone. unfold advertises.
    destruct (existsb (fun f => fits f a b c) (free_rectangles self))
      eqn:E; [|reflexivity].
    apply existsb_exists in E. destruct E as (F & HF & Hfit).
    rewrite (insert_none self a b c p Hnone F HF) in Hfit. discriminate.
  - intro Hadv. unfold insert.
    destruct (scan a b c p (free_rectangles self) 0 None)
      as [[[s F] i]|] eqn:Hscan; [|reflexivity].
    exfalso. pose proof (scan_spec a b c p (free_rectangles self)) as Hs.
    rewrite Hscan in Hs. destruct Hs as (Hnth & Hfit & _).
    apply nth_error_In in Hnth.
    assert (Hex : advertises self a b c = true).
    { unfold advertises. apply existsb_exists. exists F. auto. }
    congruence.
Qed.

(** X3.  A box that is as wide, as high or as deep as an empty container, in
    the orientation inserted, uses the container up: the free set is empty
    afterwards and every later insert fails. *)
Theorem flush_box_fills_container (W H D a b c : Q) (p : Z) (new_rect : rect)
    (self : t) :
  insert (init W H D) a b c p = Some (new_rect, self) ->
  W <= a \/ H <= b \/ D <= c ->
  free_rectangles self = [] /\
  forall a' b' c' p', insert self a' b' c' p' = None.
Proof.
  intros Hins Hflush.
  destruct (insert_shape _ _ _ _ _ _ _ Hins)
    as (F & l1 & l2 & Hfree & Hfit & _ & _ & Hfree').
  simpl in Hfree.
  assert (Hl : l1 = [] /\ l2 = [] /\ F = mkRect 0 0 0 W H D).
  { destruct l1 as [|f1 l1]; simpl in Hfree.
    - inversion Hfree; subst. auto.
    - inversion Hfree as [[Hf1 Hrest]]. destruct l1; discriminate. }
  destruct Hl as (-> & -> & ->).
  assert (Hns : splits (mkRect 0 0 0 W H D) a b c = false).
  { destruct (splits (mkRect 0 0 0 W H D) a b c) eqn:E; [|reflexivity].
    apply splits_lt in E. simpl in E. lra. }
  rewrite Hns in Hfree'. simpl in Hfree'. split; [exact Hfree'|].
  intros a' b' c' p'. unfold insert. rewrite Hfree'. reflexivity.
Qed.

Lemma flush_box_fills_container_witness :
  free_rectangles flush_box = [] /\
  forall a' b' c' p', insert flush_box a' b' c' p' = None.
Proof.
  apply (flush_box_fills_container 10 10 10 10 5 5 1%Z
           (mkRect 0 0 0 10 5 5) flush_box).
  - reflexivity.
  - left. lra.
Defined.



End PackerMore.

Section PriorityInScore.
Import BinPack.
Variables (a b c : Q) (p p' : Z).




End PriorityInScore.

(** * Further properties of the planner *)

Section PlannerMore.
Import Planner.

Lemma subseq_refl {A : Type} (l : list A) : Placed.subseq l l.
Proof. induction l; constructor; assumption. Qed.

Lemma try_rotations_rotation (bp bp' : BinPack.t) (p : Z)
    (rots : list (Q * Q * Q)) (rect : BinPack.rect) :
  try_rotations bp p rots = Some (rect, bp') ->
  In (BinPack.width rect, BinPack.height rect, BinPack.depth rect) rots /\
  In rect (BinPack.used_rectangles bp').
Proof.
  induction rots as [|[[r0 r1] r2] rots IH]; cbn [try_rotations];
    [discriminate|].
  destruct (BinPack.insert bp r0 r1 r2 p) as [[rect' bp'']|] eqn:Hins.
  - intro Heq. inversion Heq; subst.
    destruct (insert_shape _ _ _ _ _ _ _ Hins)
      as (F & l1 & l2 & _ & _ & Hnew & Hused & _).
    split.
    + subst rect. simpl. auto.
    + rewrite Hused. apply in_or_app. simpl. auto.
  - intro H. destruct (IH H). split; simpl; auto.
Qed.

Lemma try_containers_choice (item : Item.t) (cs : list Container.t)
    (d d' : packers) (container : Container.t) (rect : BinPack.rect) :
  try_containers item cs d = Some (container, rect, d') ->
  In container cs /\
  In (BinPack.width rect, BinPack.height rect, BinPack.depth rect)
     (rotations item).
Proof.
  induction cs as [|c cs IH]; cbn [try_containers]; [discriminate|].
  destruct (dict_get d (Container.containerId c)) as [bp|];
    [|intro H; destruct (IH H); simpl; auto].
  destruct (try_rotations bp (Item.priority item) (rotations item))
    as [[rect' bp']|] eqn:Htry; [|intro H; destruct (IH H); simpl; auto].
  intro Heq. inversion Heq; subst.
  apply try_rotations_rotation in Htry. simpl. tauto.
Qed.

Lemma preference_incl (cs : list Container.t) (item : Item.t)
    (c : Container.t) :
  In c (preference cs item) -> In c cs.
Proof.
  unfold preference. intro H. apply in_app_or in H.
  destruct H as [H|H]; apply filter_In in H; tauto.
Qed.

(** The state at the end of the loop, in terms of the items it placed. *)
Lemma place_loop_shape (cs : list Container.t) (items : list Item.t)
    (d d' : packers) (pls pls' : list placement) (db db' : Store.t) :
  place_loop cs items d pls db = (db', Ok (d', pls')) ->
  exists placed,
    pls' = pls ++ map Placed.placement_of placed /\
    Store.items db' = Store.items db ++ map Placed.row_of placed /\
    Store.containers db' = Store.containers db /\
    Store.logs db' = Store.logs db /\
    Placed.subseq (map Placed.item placed) items /\
    Forall (Placed.well_placed cs) placed.
Proof.
  revert d pls db. induction items as [|item items IH]; cbn [place_loop];
    intros d pls db Heq.
  - inversion Heq; subst. exists []. simpl. rewrite !app_nil_r.
    repeat split; constructor.
  - destruct (try_containers item (preference cs item) d)
      as [[[container rect] d1]|] eqn:Htry.
    + destruct (Store.insert_item (row_of item container rect) db)
        as [db1|] eqn:Hins; [|discriminate].
      destruct (IH _ _ _ Heq)
        as (placed & Hpls & Hitems & Hcs & Hlogs & Hsub & Hwp).
      exists ((item, container, rect) :: placed).
      unfold Store.insert_item in Hins.
      destruct (existsb _ (Store.items db)); [discriminate|].
      inversion Hins; subst db1. simpl in *.
      rewrite <- app_assoc in Hpls, Hitems.
      repeat split; try assumption.
      * apply Placed.subseq_take. exact Hsub.
      * constructor; [|exact Hwp].
        apply try_containers_choice in Htry. destruct Htry as [Hc Hrot].
        split; [eapply preference_incl; exact Hc|exact Hrot].
    + destruct (IH _ _ _ Heq)
        as (placed & Hpls & Hitems & Hcs & Hlogs & Hsub & Hwp).
      exists placed. repeat split; try assumption.
      apply Placed.subseq_skip. exact Hsub.
Qed.

Lemma fold_replace_container_items (cs : list Container.t) (db : Store.t) :
  Store.items (fold_left (fun s c => Store.replace_container c s) cs db)
  = Store.items db /\
  Store.logs (fold_left (fun s c => Store.replace_container c s) cs db)
  = Store.logs db.
Proof.
  revert db. induction cs as [|c cs IH]; intro db; simpl; [auto|].
  destruct (IH (Store.replace_container c db)) as [H1 H2].
  rewrite H1, H2. auto.
Qed.

(** X6.  A successful planning request answers with one placement for each item
    it placed: the item is one of the request, the container is one of
    the request, and the extents of the box are those of one of the six
    rotations of the item. *)
Theorem planner_places_rotations (request : PlacementRequest)
    (db db' : Store.t) (response : PlacementResponse) :
  placement_recommendations request db = (db', Ok response) ->
  exists placed,
    placements response = map Placed.placement_of placed /\
    Forall (fun u => In (Placed.item u) (items request)) placed /\
    Forall (Placed.well_placed (containers request)) placed.
Proof.
  unfold placement_recommendations.
  destruct (place_loop _ _ _ _ _) as [db1 [[d1 pls1]|]] eqn:Hloop;
    intro Heq; inversion Heq; subst.
  destruct (place_loop_shape _ _ _ _ _ _ _ _ Hloop)
    as (placed & Hpls & _ & _ & _ & Hsub & Hwp).
  exists placed. simpl. split; [exact Hpls|]. split; [|exact Hwp].
  clear - Hsub.
  assert (H : forall l1 l2 : list Item.t, Placed.subseq l1 l2 ->
                forall u, In u l1 -> In u l2).
  { induction 1; simpl; intros v Hv; auto.
    destruct Hv as [->|Hv]; auto. }
  rewrite Forall_forall. intros u Hu.
  apply (sort_by_In _ key_leb). apply (H _ _ Hsub).
  apply in_map. exact Hu.
Qed.

Lemma planner_places_rotations_witness :
  exists placed,
    placements
      (mkResponse true
         [mkPlacement "I1" "C1" 0 0 0 (0 + 5) (0 + 5) (0 + 6)] [])
    = map Placed.placement_of placed /\
    Forall (fun u => In (Placed.item u) [PlanExamples.tall_item]) placed /\
    Forall (Placed.well_placed [Container.mk "C1" "A" 10 10 10]) placed.
Proof.
  apply (planner_places_rotations
           (mkRequest [PlanExamples.tall_item]
              [Container.mk "C1" "A" 10 10 10])
           PlanExamples.empty_store
           (fst (placement_recommendations
                   (mkRequest [PlanExamples.tall_item]
                      [Container.mk "C1" "A" 10 10 10])
                   PlanExamples.empty_store))).
  reflexivity.
Defined.

End PlannerMore.

Section PlannerOrder.
Import Planner.








End PlannerOrder.

Section PlannerStore.
Import Planner BatchExamples.

Example batch_response :
  response =
  mkResponse true
    [ mkPlacement "HIGH" "C2" 0 0 0 (0 + 40) (0 + 40) (0 + 40);
      mkPlacement "LOW" "C1" 0 0 0 (0 + 40) (0 + 40) (0 + 40) ] [].
Proof. reflexivity. Qed.

Lemma batch_planned :
  placement_recommendations batch PlanExamples.empty_store
  = (planned, Ok response).
Proof. reflexivity. Defined.


(** X8.  A successful planning request adds to the table of items one row for
    each placement of the response, in the same order, and nothing else:
    the rows that were there stay as they are and no log entry is
    written.  A new row is not waste and its remaining uses are the usage
    limit of the item. *)
Theorem planner_stores_placements (request : PlacementRequest)
    (db db' : Store.t) (response : PlacementResponse) :
  placement_recommendations request db = (db', Ok response) ->
  exists rows,
    Store.items db' = Store.items db ++ rows /\
    Store.logs db' = Store.logs db /\
    map Items.item_id rows = map itemId (placements response) /\
    map Items.container_id rows
    = map (fun pl => Some (containerId pl)) (placements response) /\
    Forall (fun r => Items.is_waste r = false /\
                     Items.remaining_uses r = Items.usage_limit r) rows.
Proof.
  unfold placement_recommendations.
  destruct (place_loop _ _ _ _ _) as [db1 [[d1 pls1]|]] eqn:Hloop;
    intro Heq; inversion Heq; subst.
  destruct (place_loop_shape _ _ _ _ _ _ _ _ Hloop)
    as (placed & Hpls & Hitems & _ & Hlogs & _ & _).
  destruct (fold_replace_container_items (containers request) db)
    as [Hi Hl].
  exists (map Placed.row_of placed). simpl in *.
  rewrite Hitems, Hlogs, Hi, Hl, Hpls, !map_map.
  repeat split.
  rewrite Forall_forall. intros r Hr. apply in_map_iff in Hr.
  destruct Hr as (u & <- & _). split; reflexivity.
Qed.

Lemma planner_stores_placements_witness :
  exists rows,
    Store.items planned = Store.items PlanExamples.empty_store ++ rows /\
    Store.logs planned = Store.logs PlanExamples.empty_store /\
    map Items.item_id rows = map itemId (placements response) /\
    map Items.container_id rows
    = map (fun pl => Some (containerId pl)) (placements response) /\
    Forall (fun r => Items.is_waste r = false /\
                     Items.remaining_uses r = Items.usage_limit r) rows.
Proof.
  apply (planner_stores_placements batch PlanExamples.empty_store planned
           response).
  exact batch_planned.
Defined.

End PlannerStore.

Section PlannerContainment.
Import Planner BatchExamples.







End PlannerContainment.

Section PlannerErrors.
Import Planner BatchExamples.

Lemma insert_item_present (r r0 : Items.row) (db : Store.t) :
  In r0 (Store.items db) -> Items.item_id r0 = Items.item_id r ->
  Store.insert_item r db = None.
Proof.
  intros Hin Hid. unfold Store.insert_item.
  assert (H : existsb (fun r' => String.eqb (Items.item_id r')
                                   (Items.item_id r)) (Store.items db)
              = true).
  { apply existsb_exists. exists r0. split; [exact Hin|].
    rewrite Hid. apply String.eqb_refl. }
  rewrite H. reflexivity.
Qed.

Lemma place_loop_again (cs : list Container.t) (items : list Item.t)
    (d d' : packers) (pls pls' : list placement) (db db' : Store.t) :
  place_loop cs items d pls db = (db', Ok (d', pls')) ->
  pls' <> pls ->
  forall pls2 db2,
    Store.items db2 = Store.items db' ->
    place_loop cs items d pls2 db2 = (db2, Err500).
Proof.
  revert d pls db. induction items as [|item items IH]; cbn [place_loop];
    intros d pls db Heq Hne pls2 db2 Hdb2.
  - inversion Heq; subst. congruence.
  - destruct (try_containers item (preference cs item) d)
      as [[[container rect] d1]|] eqn:Htry.
    + destruct (Store.insert_item (row_of item container rect) db)
        as [db1|] eqn:Hins; [|discriminate].
      destruct (place_loop_shape _ _ _ _ _ _ _ _ Heq)
        as (placed & _ & Hitems & _).
      unfold Store.insert_item in Hins.
      destruct (existsb _ (Store.items db)); [discriminate|].
      inversion Hins; subst db1. simpl in Hitems.
      rewrite (insert_item_present _ (row_of item container rect)).
      * reflexivity.
      * rewrite Hdb2, Hitems. apply in_or_app. left.
        apply in_or_app. right. simpl. auto.
      * reflexivity.
    + apply (IH _ _ _ Heq Hne). exact Hdb2.
Qed.

(** X10.  Planning is not repeatable: when a request has placed at least one
    item, the same request sent again to the store it left fails with
    status 500, because the first item it places again is already in the
    table. *)
Theorem planner_fails_when_repeated (request : PlacementRequest)
    (db db' : Store.t) (response : PlacementResponse) :
  placement_recommendations request db = (db', Ok response) ->
  placements response <> [] ->
  snd (placement_recommendations request db') = Err500.
Proof.
  unfold placement_recommendations.
  destruct (place_loop _ _ _ _ _) as [db1 [[d1 pls1]|]] eqn:Hloop;
    intro Heq; inversion Heq; subst. simpl. intro Hne.
  rewrite (place_loop_again _ _ _ _ _ _ _ _ Hloop Hne).
  - reflexivity.
  - apply fold_replace_container_items.
Qed.

Lemma planner_fails_when_repeated_witness :
  snd (placement_recommendations batch planned) = Err500.
Proof.
  apply (planner_fails_when_repeated batch PlanExamples.empty_store planned
           response).
  - exact batch_planned.
  - discriminate.
Defined.

Lemma insert_item_unique (r : Items.row) (db db' : Store.t) :
  Store.unique_ids db -> Store.insert_item r db = Some db' ->
  Store.unique_ids db'.
Proof.
  unfold Store.unique_ids, Store.insert_item. intros Hu.
  destruct (existsb _ (Store.items db)) eqn:E; [discriminate|].
  intro H. inversion H; subst. simpl. rewrite map_app. simpl.
  apply NoDup_app_remove_l with (l := []). simpl.
  apply Permutation_NoDup with (l := Items.item_id r
                                     :: map Items.item_id (Store.items db)).
  - apply Permutation_cons_append.
  - constructor; [|exact Hu]. intro Hin. apply in_map_iff in Hin.
    destruct Hin as (r' & Hid & Hr').
    assert (Ht : existsb (fun r' => String.eqb (Items.item_id r')
                                      (Items.item_id r)) (Store.items db)
                 = true).
    { apply existsb_exists. exists r'. split; [exact Hr'|].
      rewrite Hid. apply String.eqb_refl. }
    congruence.
Qed.

Lemma place_loop_unique (cs : list Container.t) (items : list Item.t)
    (d : packers) (pls : list placement) (db : Store.t) :
  Store.unique_ids db ->
  Store.unique_ids (fst (place_loop cs items d pls db)).
Proof.
  revert d pls db. induction items as [|item items IH]; cbn [place_loop];
    intros d pls db Hu; [exact Hu|].
  destruct (try_containers item (preference cs item) d)
    as [[[container rect] d1]|]; [|apply IH; exact Hu].
  destruct (Store.insert_item (row_of item container rect) db)
    as [db1|] eqn:Hins; [|exact Hu].
  apply IH. eapply insert_item_unique; eauto.
Qed.

(** X11.  A planning request keeps the item ids of the table distinct, whether
    it succeeds or fails: an item is stored at most once. *)
Theorem planner_keeps_ids_unique (request : PlacementRequest)
    (db : Store.t) :
  Store.unique_ids db ->
  Store.unique_ids (fst (placement_recommendations request db)).
Proof.
  intro Hu. unfold placement_recommendations.
  pose proof (place_loop_unique (containers request)
                (sort_by key_leb (items request))
                (init_packers (containers request)) []
                (fold_left (fun s c => Store.replace_container c s)
                   (containers request) db)) as H.
  destruct (place_loop _ _ _ _ _) as [db1 [[d1 pls1]|]]; simpl in *;
    apply H; unfold Store.unique_ids in *;
    rewrite (proj1 (fold_replace_container_items _ _)); exact Hu.
Qed.

Lemma planner_keeps_ids_unique_witness :
  Store.unique_ids (fst (placement_recommendations batch planned)).
Proof.
  apply (planner_keeps_ids_unique batch planned).
  unfold Store.unique_ids. simpl.
  constructor; [simpl; intros [H|[]]; discriminate|].
  constructor; [intros []|constructor].
Defined.

End PlannerErrors.

Section PlannerZones.
Import Planner BatchExamples.

Lemma try_containers_app (item : Item.t) (l1 l2 : list Container.t)
    (d : packers) :
  try_containers item (l1 ++ l2) d =
  match try_containers item l1 d with
  | Some res => Some res
  | None => try_containers item l2 d
  end.
Proof.
  induction l1 as [|c l1 IH]; cbn [try_containers app]; [reflexivity|].
  destruct (dict_get d (Container.containerId c)) as [bp|]; [|exact IH].
  destruct (try_rotations bp (Item.priority item) (rotations item))
    as [[rect bp']|]; [reflexivity|exact IH].
Qed.

Lemma try_rotations_none (bp : BinPack.t) (p : Z) (rots : list (Q * Q * Q)) :
  try_rotations bp p rots = None ->
  forall a b c, In (a, b, c) rots -> BinPack.advertises bp a b c = false.
Proof.
  induction rots as [|[[r0 r1] r2] rots IH]; cbn [try_rotations];
    intros H a b c Hin; [contradiction|].
  destruct (BinPack.insert bp r0 r1 r2 p) as [res|] eqn:Hins;
    [discriminate|].
  destruct Hin as [Heq|Hin]; [|exact (IH H a b c Hin)].
  inversion Heq; subst. unfold BinPack.advertises.
  destruct (existsb (fun f => BinPack.fits f a b c)
              (BinPack.free_rectangles bp)) eqn:E; [|reflexivity].
  apply existsb_exists in E. destruct E as (F & HF & Hfit).
  rewrite (insert_none bp a b c p Hins F HF) in Hfit. discriminate.
Qed.

Lemma try_containers_none (item : Item.t) (l : list Container.t)
    (d : packers) :
  try_containers item l d = None ->
  forall c bp, In c l -> dict_get d (Container.containerId c) = Some bp ->
    try_rotations bp (Item.priority item) (rotations item) = None.
Proof.
  induction l as [|c0 l IH]; cbn [try_containers]; intros H c bp Hin Hget;
    [contradiction|].
  destruct (dict_get d (Container.containerId c0)) as [bp0|] eqn:Hget0.
  - destruct (try_rotations bp0 (Item.priority item) (rotations item))
      as [[rect bp']|] eqn:Htry; [discriminate|].
    destruct Hin as [->|Hin]; [congruence|exact (IH H c bp Hin Hget)].
  - destruct Hin as [->|Hin]; [congruence|exact (IH H c bp Hin Hget)].
Qed.

(** X12.  Zone preference: an item goes to a container outside its preferred
    zone only when no container of the preferred zone has a free cuboid
    that fits any of its six rotations. *)
Theorem planner_prefers_zone (cs : list Container.t) (item : Item.t)
    (d d' : packers) (container : Container.t) (rect : BinPack.rect) :
  try_containers item (preference cs item) d = Some (container, rect, d') ->
  Container.zone container <> Item.preferredZone item ->
  forall c bp a b c0,
    In c cs -> Container.zone c = Item.preferredZone item ->
    dict_get d (Container.containerId c) = Some bp ->
    In (a, b, c0) (rotations item) ->
    BinPack.advertises bp a b c0 = false.
Proof.
  unfold preference. rewrite try_containers_app.
  destruct (try_containers item
              (filter (fun c => String.eqb (Container.zone c)
                                  (Item.preferredZone item)) cs) d)
    as [[[container1 rect1] d1]|] eqn:Hpref.
  - intro Heq. inversion Heq; subst.
    apply try_containers_choice in Hpref. destruct Hpref as [Hin _].
    apply filter_In in Hin. destruct Hin as [_ Hz].
    apply String.eqb_eq in Hz. congruence.
  - intros _ _ c bp a b c0 Hc Hz Hget Hrot.
    apply (try_rotations_none bp (Item.priority item) (rotations item));
      [|exact Hrot].
    apply (try_containers_none item _ d Hpref c bp); [|exact Hget].
    apply filter_In. split; [exact Hc|]. rewrite Hz. apply String.eqb_refl.
Qed.

End PlannerZones.

Lemma planner_prefers_zone_witness :
  BinPack.advertises (BinPack.init 1 1 1) 40 40 40 = false.
Proof.
  eapply (planner_prefers_zone
            [PlanExamples.small_container; BatchExamples.c2]
            BatchExamples.i_low
            (Planner.init_packers
               [PlanExamples.small_container; BatchExamples.c2])
            _ BatchExamples.c2 _).
  - reflexivity.
  - discriminate.
  - left. reflexivity.
  - reflexivity.
  - reflexivity.
  - left. reflexivity.
Defined.

(** * Further properties of the lifecycle *)

Section Evolution.
Import Handlers Lifecycle.

Lemma Forall2_refl {A : Type} (R : A -> A -> Prop) (l : list A) :
  (forall u, R u u) -> Forall2 R l l.
Proof. intro H. induction l; constructor; auto. Qed.

Lemma Forall2_trans {A : Type} (R : A -> A -> Prop) (l1 l2 l3 : list A) :
  (forall u v w, R u v -> R v w -> R u w) ->
  Forall2 R l1 l2 -> Forall2 R l2 l3 -> Forall2 R l1 l3.
Proof.
  intros Ht H12. revert l3. induction H12; intros l3 H23;
    inversion H23; subst; constructor; eauto.
Qed.

Lemma update_where_Forall2 (R : Items.row -> Items.row -> Prop)
    (cond : Items.row -> bool) (set : Items.row -> Items.row)
    (db : Store.t) :
  (forall r, R r r) -> (forall r, cond r = true -> R r (set r)) ->
  Forall2 R (Store.items db) (Store.items (Store.update_where cond set db)).
Proof.
  intros Hrefl Hset. unfold Store.update_where; simpl.
  induction (Store.items db) as [|r l IH]; simpl; constructor; [|exact IH].
  destruct (cond r) eqn:E; auto.
Qed.

Lemma same_item_refl (r : Items.row) : same_item r r.
Proof. unfold same_item. tauto. Qed.

Lemma same_item_trans (u v w : Items.row) :
  same_item u v -> same_item v w -> same_item u w.
Proof.
  unfold same_item. intros Huv Hvw.
  destruct Huv as (H1 & H2 & H3 & H4 & H5 & H6 & H7 & H8 & H9 & H10 & H11).
  destruct Hvw as (K1 & K2 & K3 & K4 & K5 & K6 & K7 & K8 & K9 & K10 & K11).
  repeat split; try congruence. auto.
Qed.

Lemma same_but_uses_same_item (r r' : Items.row) :
  same_but_uses r r' -> same_item r r'.
Proof.
  unfold same_but_uses, same_item. destruct r, r'; simpl.
  intro H. inversion H; subst. repeat split; auto.
Qed.

Lemma same_but_uses_trans (u v w : Items.row) :
  same_but_uses u v -> same_but_uses v w -> same_but_uses u w.
Proof. unfold same_but_uses. congruence. Qed.

Lemma usage_loop_same_but_uses (usages : list Usage) (db : Store.t)
    (used : list UsedItem.t) (depleted : list (string * string)) :
  Forall2 same_but_uses (Store.items db)
    (Store.items (fst (fst (usage_loop usages db used depleted)))) /\
  Store.logs (fst (fst (usage_loop usages db used depleted))) = Store.logs db /\
  Store.containers (fst (fst (usage_loop usages db used depleted)))
  = Store.containers db.
Proof.
  revert db used depleted.
  induction usages as [|u rest IH]; intros db used depleted;
    cbn [usage_loop].
  - simpl. split; [|auto]. apply Forall2_refl. reflexivity.
  - destruct (usage_target u db) as [item|]; [|apply IH].
    destruct (Items.item_9 item) as [uses|]; [|apply IH].
    match goal with
    | |- context [usage_loop rest ?db1 ?u1 ?d1] =>
        destruct (IH db1 u1 d1) as (H1 & H2 & H3)
    end.
    split; [|split; [rewrite H2; reflexivity|rewrite H3; reflexivity]].
    eapply Forall2_trans; [exact same_but_uses_trans| |exact H1].
    apply update_where_Forall2; [reflexivity|].
    intros r _. destruct r; reflexivity.
Qed.

Lemma check_item_expiry_same_item (today : Date.t) (db : Store.t) :
  Forall2 same_item (Store.items db)
    (Store.items (check_item_expiry today db)).
Proof.
  apply update_where_Forall2; [exact same_item_refl|].
  intros r _. destruct r; unfold same_item; simpl. tauto.
Qed.

Lemma mark_depleted_items_same_item (db : Store.t) :
  Forall2 same_item (Store.items db) (Store.items (mark_depleted_items db)).
Proof.
  apply update_where_Forall2; [exact same_item_refl|].
  intros r _. destruct r; unfold same_item; simpl. tauto.
Qed.

Lemma Forall2_impl {A : Type} (R S : A -> A -> Prop) (l1 l2 : list A) :
  (forall u v, R u v -> S u v) -> Forall2 R l1 l2 -> Forall2 S l1 l2.
Proof. intros H. induction 1; constructor; auto. Qed.

Lemma run_evolves (o : op) (db : Store.t) :
  evolves same_item db (run o db).
Proof.
  unfold evolves. destruct o as [request|request|request|today|request today];
    simpl.
  - (* planning *)
    unfold Planner.placement_recommendations.
    destruct (fold_replace_container_items (Planner.containers request) db)
      as [Hi _].
    assert (H : forall items d pls s,
              exists added,
                Store.items (fst (Planner.place_loop
                                    (Planner.containers request) items d
                                    pls s))
                = Store.items s ++ added).
    { induction items as [|item items IH]; intros d pls s;
        cbn [Planner.place_loop].
      - exists []. simpl. rewrite app_nil_r. reflexivity.
      - destruct (Planner.try_containers item _ d)
          as [[[container rect] d1]|]; [|apply IH].
        unfold Store.insert_item.
        destruct (existsb _ (Store.items s)).
        + exists []. simpl. rewrite app_nil_r. reflexivity.
        + match goal with
          | |- context [Planner.place_loop _ items ?d1 ?p1 ?s1] =>
              destruct (IH d1 p1 s1) as (added & Hadd)
          end.
          rewrite Hadd. simpl. rewrite <- app_assoc. eexists. reflexivity. }
    match goal with
    | |- context [Planner.place_loop ?cs ?items ?d ?pls ?s] =>
        destruct (H items d pls s) as (added & Hadd);
        destruct (Planner.place_loop cs items d pls s)
          as [db1 [[d1 pls1]|]]
    end; simpl in *; exists (Store.items db), added;
      (split; [rewrite Hadd, Hi; reflexivity
              |apply Forall2_refl; exact same_item_refl]).
  - (* retrieval *)
    exists (Store.items (fst (retrieve_item request db))), [].
    rewrite app_nil_r. split; [reflexivity|]. unfold retrieve_item.
    destruct (Store.fetchone_where _ db) as [item|]; simpl;
      [|apply Forall2_refl; exact same_item_refl].
    destruct (Items.item_9 item) as [uses|]; simpl;
      [|apply Forall2_refl; exact same_item_refl].
    apply (update_where_Forall2 same_item); [exact same_item_refl|].
    intros r _. destruct r; unfold same_item; simpl. tauto.
  - (* manual placement *)
    exists (Store.items (fst (place_item request db))), [].
    rewrite app_nil_r. split; [reflexivity|]. unfold place_item.
    destruct (lookup (startCoordinates (position request)) "width"),
      (lookup (startCoordinates (position request)) "depth"),
      (lookup (startCoordinates (position request)) "height"),
      (lookup (endCoordinates (position request)) "width"),
      (lookup (endCoordinates (position request)) "depth"),
      (lookup (endCoordinates (position request)) "height"); simpl;
      try (apply Forall2_refl; exact same_item_refl).
    apply (update_where_Forall2 same_item); [exact same_item_refl|].
    intros r _. destruct r; unfold same_item; simpl. tauto.
  - (* identify waste *)
    exists (Store.items (fst (identify_waste today db))), [].
    rewrite app_nil_r. split; [reflexivity|]. unfold identify_waste.
    cbn [fst].
    apply (Forall2_trans same_item _
             (Store.items (check_item_expiry today db)) _ same_item_trans).
    + apply check_item_expiry_same_item.
    + apply mark_depleted_items_same_item.
  - (* simulation *)
    exists (Store.items (fst (simulate_day request today db))), [].
    rewrite app_nil_r. split; [reflexivity|]. unfold simulate_day.
    destruct (new_date_of request today); simpl;
      [|apply Forall2_refl; exact same_item_refl].
    pose proof (usage_loop_same_but_uses (itemsToBeUsedPerDay request) db
                  [] []) as [Hloop _].
    destruct (usage_loop (itemsToBeUsedPerDay request) db [] [])
      as [[db1 used] depleted]. cbn [fst] in *.
    apply (Forall2_trans same_item _ (Store.items db1) _ same_item_trans).
    + eapply Forall2_impl; [exact same_but_uses_same_item|exact Hloop].
    + apply check_item_expiry_same_item.
Qed.

Lemma evolves_trans (db1 db2 db3 : Store.t) :
  evolves same_item db1 db2 -> evolves same_item db2 db3 ->
  evolves same_item db1 db3.
Proof.
  intros (k1 & a1 & H1 & F1) (k2 & a2 & H2 & F2).
  rewrite H1 in F2. apply Forall2_app_inv_l in F2.
  destruct F2 as (k2a & k2b & Fa & Fb & ->).
  exists k2a, (k2b ++ a2). split.
  - rewrite H2, app_assoc. reflexivity.
  - eapply Forall2_trans; [exact same_item_trans|exact F1|exact Fa].
Qed.

(** X13.  No request other than undocking removes an item, changes its name,
    dimensions, mass, priority, expiry date, usage limit or preferred
    zone, or clears its waste flag: after any sequence of planning,
    retrieval, manual placement, identify-waste and simulation requests,
    every row that was in the table is still there, in the same order,
    with these attributes as they were and still waste if it was. *)
Theorem items_persist (ops : list op) (db : Store.t) :
  evolves same_item db (run_all ops db).
Proof.
  unfold run_all. revert db. induction ops as [|o ops IH]; intro db; simpl.
  - exists (Store.items db), []. rewrite app_nil_r.
    split; [reflexivity|]. apply Forall2_refl. exact same_item_refl.
  - eapply evolves_trans; [apply run_evolves|apply IH].
Qed.

End Evolution.

Section Undocking.
Import Handlers Lifecycle.

Lemma filter_length_split {A : Type} (f : A -> bool) (l : list A) :
  List.length l
  = (List.length (filter f l)
     + List.length (filter (fun u => negb (f u)) l))%nat.
Proof.
  induction l as [|u l IH]; simpl; [reflexivity|].
  destruct (f u); simpl; lia.
Qed.

(** X14.  Undocking deletes exactly the waste rows: the count it returns is the
    number of rows that are gone, no waste row is left, every other row
    stays as it is, and a second undocking removes nothing. *)
Theorem undocking_removes_waste (db : Store.t) :
  let db' := fst (complete_undocking db) in
  List.length (Store.items db)
  = (snd (complete_undocking db) + List.length (Store.items db'))%nat /\
  Forall (fun r => Items.is_waste r = false) (Store.items db') /\
  (forall r, In r (Store.items db') <->
             In r (Store.items db) /\ Items.is_waste r = false) /\
  snd (complete_undocking db') = 0%nat.
Proof.
  unfold complete_undocking, Store.select_where. simpl.
  assert (Hnw : Forall (fun r => Items.is_waste r = false)
                  (filter (fun r => negb (Items.is_waste r))
                     (Store.items db))).
  { rewrite Forall_forall. intros r Hr. apply filter_In in Hr.
    destruct Hr as [_ Hr]. apply negb_true_iff. exact Hr. }
  split; [apply filter_length_split|]. split; [exact Hnw|]. split.
  - intro r. rewrite filter_In, negb_true_iff. reflexivity.
  - induction Hnw as [|r l Hr _ IH]; simpl; [reflexivity|].
    rewrite Hr. exact IH.
Qed.

(** X15.  Identify-waste followed by undocking clears the table of every item
    whose expiry day is not after the day of the call and of every item
    with a usage limit and no use left. *)
Theorem identify_then_undock_clears (today : Date.t) (db : Store.t)
    (r : Items.row) :
  In r (Store.items
          (fst (complete_undocking (fst (identify_waste today db))))) ->
  (forall e, Items.expiry_date r = Some e -> Date.leb e today = false) /\
  (forall limit uses, Items.usage_limit r = Some limit ->
     Items.remaining_uses r = Some uses -> (0 < uses)%Z).
Proof.
  unfold complete_undocking, identify_waste, mark_depleted_items,
    check_item_expiry, Store.update_where. simpl.
  rewrite filter_In, negb_true_iff, map_map. intros [Hin Hw].
  apply in_map_iff in Hin. destruct Hin as (r0 & <- & _).
  destruct r0 as [id nm w d h m pr ex ul ru pz ci sw sd sh ew ed eh iw].
  simpl in *.
  destruct ex as [e|]; simpl in *.
  - destruct (Date.leb e today) eqn:Hle; simpl in *.
    + destruct iw; simpl in *.
      * destruct ul, ru; simpl in *; try rewrite andb_false_r in *;
          simpl in *; discriminate.
      * destruct ul, ru; simpl in *; try rewrite andb_false_r in *;
          simpl in *; discriminate.
    + destruct ul as [l|], ru as [n|]; simpl in *;
        try (split; [intros e0 He0; inversion He0; subst; exact Hle
                    |intros; discriminate]).
      destruct (n <=? 0)%Z eqn:Hn; simpl in *.
      * destruct iw; simpl in *; discriminate.
      * split; [intros e0 He0; inversion He0; subst; exact Hle|].
        intros limit uses _ Hu. inversion Hu; subst.
        apply Z.leb_gt in Hn. exact Hn.
  - destruct ul as [l|], ru as [n|]; simpl in *;
      try (split; intros; discriminate).
    destruct (n <=? 0)%Z eqn:Hn; simpl in *.
    + destruct iw; simpl in *; discriminate.
    + split; [intros; discriminate|].
      intros limit uses _ Hu. inversion Hu; subst.
      apply Z.leb_gt in Hn. exact Hn.
Qed.

Lemma identify_then_undock_clears_witness :
  (forall e, Items.expiry_date LifecycleExamples.item_f = Some e ->
             Date.leb e (Date.ymd 2025 1 2) = false) /\
  (forall limit uses,
     Items.usage_limit LifecycleExamples.item_f = Some limit ->
     Items.remaining_uses LifecycleExamples.item_f = Some uses ->
     (0 < uses)%Z).
Proof.
  apply (identify_then_undock_clears (Date.ymd 2025 1 2)
           LifecycleExamples.mixed LifecycleExamples.item_f).
  simpl. left. reflexivity.
Defined.

End Undocking.

Section WasteMore.
Import Handlers Lifecycle.

Lemma map_id_on {A : Type} (g : A -> A) (l : list A) :
  (forall u, In u l -> g u = u) -> map g l = l.
Proof.
  induction l as [|u l IH]; simpl; intro H; [reflexivity|].
  rewrite H by auto. rewrite IH by auto. reflexivity.
Qed.

Lemma store_eta (db : Store.t) :
  Store.mk (Store.containers db) (Store.items db) (Store.logs db) = db.
Proof. destruct db; reflexivity. Qed.

(** X16.  A second identify-waste call on the same day changes nothing and
    lists the same items. *)
Theorem identify_waste_idempotent (today : Date.t) (db : Store.t) :
  identify_waste today (fst (identify_waste today db))
  = identify_waste today db.
Proof.
  unfold identify_waste. cbn [fst].
  assert (H : mark_depleted_items
                (check_item_expiry today
                   (mark_depleted_items (check_item_expiry today db)))
              = mark_depleted_items (check_item_expiry today db)).
  { unfold mark_depleted_items, check_item_expiry, Store.update_where,
      Store.with_items. simpl. f_equal.
    rewrite !map_map. apply map_ext. intro r.
    destruct r as [id nm w d h m pr ex ul ru pz ci sw sd sh ew ed eh iw].
    simpl.
    destruct ex as [e|]; simpl;
      [destruct (Date.leb e today) eqn:Hle; simpl|];
      destruct iw; simpl;
      destruct ul as [l|], ru as [n|]; simpl;
      try rewrite Hle; simpl;
      try destruct (n <=? 0)%Z eqn:Hn; simpl;
      try rewrite Hle; simpl; try rewrite Hn; simpl; reflexivity. }
  rewrite H. reflexivity.
Qed.




End WasteMore.

Section HandlerEdges.
Import Handlers Lifecycle.


(** X20.  Manual placement of an id that is in no row reports success and
    changes no row; only a log entry is written. *)
Theorem place_item_unknown_id (request : PlaceRequest) (db : Store.t)
    (sw sd sh ew ed eh : Q) :
  lookup (startCoordinates (position request)) "width" = Some sw ->
  lookup (startCoordinates (position request)) "depth" = Some sd ->
  lookup (startCoordinates (position request)) "height" = Some sh ->
  lookup (endCoordinates (position request)) "width" = Some ew ->
  lookup (endCoordinates (position request)) "depth" = Some ed ->
  lookup (endCoordinates (position request)) "height" = Some eh ->
  (forall r, In r (Store.items db) -> Items.item_id r <> p_itemId request) ->
  snd (place_item request db) = Ok true /\
  Store.items (fst (place_item request db)) = Store.items db /\
  Store.logs (fst (place_item request db))
  = Store.logs db
    ++ [Log.mkRow (Some (p_userId request)) "placement"
          (Some (p_itemId request))].
Proof.
  intros H1 H2 H3 H4 H5 H6 Hno. unfold place_item.
  rewrite H1, H2, H3, H4, H5, H6. simpl.
  split; [reflexivity|]. split; [|reflexivity].
  apply map_id_on. intros r Hr.
  destruct (has_id (p_itemId request) r) eqn:E; [|reflexivity].
  apply has_id_true in E. exfalso. exact (Hno r Hr E).
Qed.

Lemma place_item_unknown_id_witness :
  snd (place_item
         (mkPlaceRequest "Z" "U" "C1"
            (position StoreExamples.clash)) StoreExamples.one_placed)
  = Ok true /\
  Store.items
    (fst (place_item
            (mkPlaceRequest "Z" "U" "C1"
               (position StoreExamples.clash)) StoreExamples.one_placed))
  = Store.items StoreExamples.one_placed /\
  Store.logs
    (fst (place_item
            (mkPlaceRequest "Z" "U" "C1"
               (position StoreExamples.clash)) StoreExamples.one_placed))
  = Store.logs StoreExamples.one_placed
    ++ [Log.mkRow (Some "U"%string) "placement" (Some "Z"%string)].
Proof.
  apply (place_item_unknown_id
           (mkPlaceRequest "Z" "U" "C1" (position StoreExamples.clash))
           StoreExamples.one_placed 0 0 0 200 50 100);
    try reflexivity.
  intros r [<-|[<-|[]]]; discriminate.
Defined.

(** X21.  Manual placement with one of the six coordinates missing fails with
    status 500 and leaves the store untouched, log included. *)
Theorem place_item_missing_coordinate (request : PlaceRequest)
    (db : Store.t) :
  lookup (startCoordinates (position request)) "width" = None \/
  lookup (startCoordinates (position request)) "depth" = None \/
  lookup (startCoordinates (position request)) "height" = None \/
  lookup (endCoordinates (position request)) "width" = None \/
  lookup (endCoordinates (position request)) "depth" = None \/
  lookup (endCoordinates (position request)) "height" = None ->
  place_item request db = (db, Err500).
Proof.
  unfold place_item.
  destruct (lookup (startCoordinates (position request)) "width"),
    (lookup (startCoordinates (position request)) "depth"),
    (lookup (startCoordinates (position request)) "height"),
    (lookup (endCoordinates (position request)) "width"),
    (lookup (endCoordinates (position request)) "depth"),
    (lookup (endCoordinates (position request)) "height");
    intro H; try reflexivity;
    repeat (destruct H as [H|H]; try discriminate).
Qed.

Lemma place_item_missing_coordinate_witness :
  place_item
    (mkPlaceRequest "B" "U" "C1"
       (mkPosition [("width"%string, 0); ("depth"%string, 0)]
          [("width"%string, 1); ("depth"%string, 1); ("height"%string, 1)]))
    StoreExamples.one_placed
  = (StoreExamples.one_placed, Err500).
Proof.
  apply place_item_missing_coordinate.
  right. right. left. reflexivity.
Defined.

(** X22.  Manual placement leaves every row with another id as it is, and in
    the rows it rewrites it changes only the container and the six
    coordinates: waste flag and remaining uses stay. *)
Theorem place_item_touches_placement_only (request : PlaceRequest)
    (db : Store.t) :
  Forall2
    (fun r r' =>
       (Items.item_id r <> p_itemId request -> r' = r) /\
       same_item r r' /\
       Items.is_waste r' = Items.is_waste r /\
       Items.remaining_uses r' = Items.remaining_uses r)
    (Store.items db) (Store.items (fst (place_item request db))).
Proof.
  unfold place_item.
  assert (Hrefl : forall r : Items.row,
            (Items.item_id r <> p_itemId request -> r = r) /\
            same_item r r /\ Items.is_waste r = Items.is_waste r /\
            Items.remaining_uses r = Items.remaining_uses r).
  { intro r. split; [auto|]. split; [apply same_item_refl|]. auto. }
  destruct (lookup (startCoordinates (position request)) "width"),
    (lookup (startCoordinates (position request)) "depth"),
    (lookup (startCoordinates (position request)) "height"),
    (lookup (endCoordinates (position request)) "width"),
    (lookup (endCoordinates (position request)) "depth"),
    (lookup (endCoordinates (position request)) "height"); simpl;
    try (apply Forall2_refl; exact Hrefl).
  induction (Store.items db) as [|r l IH]; simpl; constructor; [|exact IH].
  destruct (has_id (p_itemId request) r) eqn:E; [|apply Hrefl].
  apply has_id_true in E. split; [congruence|].
  destruct r; unfold same_item; simpl. tauto.
Qed.


(** X24.  A simulation never flags an item as waste for lack of uses: a row that
    is waste after it was waste before or has reached its expiry day on
    the day of the call.  The target day of the simulation plays no
    part, and all else that changes in a row is its remaining uses. *)
Theorem simulate_day_flags_by_expiry_only (request : SimulateRequest)
    (today : Date.t) (db : Store.t) :
  Forall2
    (fun r r' =>
       same_item r r' /\
       Items.container_id r' = Items.container_id r /\
       (Items.is_waste r' = true ->
        Items.is_waste r = true \/
        exists e, Items.expiry_date r = Some e /\ Date.leb e today = true))
    (Store.items db) (Store.items (fst (simulate_day request today db))).
Proof.
  unfold simulate_day.
  destruct (new_date_of request today) as [new_date|]; simpl.
  2:{ apply Forall2_refl. intro r. split; [apply same_item_refl|]. auto. }
  pose proof (usage_loop_same_but_uses (itemsToBeUsedPerDay request) db
                [] []) as [Hloop _].
  destruct (usage_loop (itemsToBeUsedPerDay request) db [] [])
    as [[db1 used] depleted]. cbn [fst] in *.
  unfold check_item_expiry, Store.update_where. simpl.
  induction Hloop as [|r r1 l l1 Hr _ IH]; simpl; constructor; [|exact IH].
  unfold same_but_uses in Hr.
  destruct r as [id nm w d h m pr ex ul ru pz ci sw sd sh ew ed eh iw].
  destruct r1 as [id1 nm1 w1 d1 h1 m1 pr1 ex1 ul1 ru1 pz1 ci1 sw1 sd1 sh1
                    ew1 ed1 eh1 iw1].
  simpl in Hr. inversion Hr; subst. unfold same_item. simpl.
  destruct ex as [e|]; simpl;
    [destruct (Date.leb e today) eqn:Hle; simpl|];
    destruct iw; simpl; (split; [tauto|]); (split; [reflexivity|]);
    intro Hw; try discriminate; auto.
  right. exists e. auto.
Qed.

End HandlerEdges.

Section ReturnPlan.
Import Handlers.

Lemma subseq_sorted {A : Type} (R : A -> A -> Prop) (l1 l2 : list A) :
  Placed.subseq l1 l2 -> StronglySorted R l2 -> StronglySorted R l1.
Proof.
  induction 1 as [|u l1 l2 Hs IH|u l1 l2 Hs IH]; intro H2.
  - constructor.
  - inversion H2; subst. auto.
  - inversion H2 as [|? ? Hl Hu]; subst. constructor; [auto|].
    rewrite Forall_forall in *. intros v Hv. apply Hu.
    clear - Hs Hv. induction Hs; simpl in *; auto.
    destruct Hv as [->|Hv]; auto.
Qed.

Lemma mass_desc_total (u v : Items.row) :
  mass_desc u v = false -> mass_desc v u = true.
Proof.
  unfold mass_desc. intro H. apply Qle_bool_iff.
  destruct (Qlt_le_dec (Items.mass v) (Items.mass u)) as [Hlt|Hle].
  - apply Qlt_le_weak in Hlt. apply Qle_bool_iff in Hlt. congruence.
  - exact Hle.
Qed.

Lemma mass_desc_trans (u v w : Items.row) :
  mass_desc u v = true -> mass_desc v w = true -> mass_desc u w = true.
Proof.
  unfold mass_desc. rewrite !Qle_bool_iff. intros H1 H2.
  eapply Qle_trans; eauto.
Qed.

Lemma return_loop_shape (today : Date.t) (maxWeight : Q)
    (waste_items : list Items.row) (total_weight : Z)
    (return_items : list WasteItem.t) :
  exists rows,
    Placed.subseq rows waste_items /\
    returnItems (return_loop today maxWeight waste_items total_weight
                   return_items)
    = return_items ++ map (waste_entry today) rows /\
    totalWeight (return_loop today maxWeight waste_items total_weight
                   return_items)
    = (total_weight + fold_right Z.add 0 (map Items.item_6 rows))%Z /\
    (rows <> [] ->
     inject_Z (totalWeight (return_loop today maxWeight waste_items
                              total_weight return_items)) <= maxWeight).
Proof.
  revert total_weight return_items.
  induction waste_items as [|item rest IH]; intros tw ri; cbn [return_loop].
  - exists []. simpl. rewrite app_nil_r, Z.add_0_r.
    repeat split; [constructor|congruence].
  - destruct (Qltb maxWeight (inject_Z (tw + Items.item_6 item))) eqn:E.
    + destruct (IH tw ri) as (rows & Hs & Hr & Ht & Hb).
      exists rows. repeat split; try assumption.
      apply Placed.subseq_skip. exact Hs.
    + destruct (IH (tw + Items.item_6 item)%Z
                  (ri ++ [waste_entry today item]))
        as (rows & Hs & Hr & Ht & Hb).
      exists (item :: rows). split; [apply Placed.subseq_take; exact Hs|].
      split; [rewrite Hr, <- app_assoc; reflexivity|].
      split; [rewrite Ht; simpl; lia|].
      intros _. destruct rows as [|r rows].
      * rewrite Ht. simpl. rewrite Z.add_0_r.
        apply Qltb_ge in E. exact E.
      * apply Hb. discriminate.
Qed.

(** X25.  The return plan takes its items from the rows already flagged as
    waste, heaviest first, leaving some out but never reordering; the
    total it reports is the sum of [item[6]] over the items it includes,
    and when it includes any item that total is at most the weight
    limit. *)
Theorem return_plan_structure (request : ReturnPlanRequest) (today : Date.t)
    (db : Store.t) :
  exists rows,
    Forall (fun r => In r (Store.items db) /\ Items.is_waste r = true) rows /\
    StronglySorted (fun u v => Items.mass v <= Items.mass u) rows /\
    returnItems (waste_return_plan request today db)
    = map (waste_entry today) rows /\
    totalWeight (waste_return_plan request today db)
    = fold_right Z.add 0%Z (map Items.item_6 rows) /\
    (rows <> [] ->
     inject_Z (totalWeight (waste_return_plan request today db))
     <= maxWeight request).
Proof.
  unfold waste_return_plan.
  destruct (return_loop_shape today (maxWeight request)
              (sort_by mass_desc (Store.select_where Items.is_waste db))
              0%Z [])
    as (rows & Hs & Hr & Ht & Hb).
  exists rows. split; [|split; [|split; [exact Hr|split; [exact Ht|exact Hb]]]].
  - rewrite Forall_forall. intros r Hr0.
    assert (Hin : In r (sort_by mass_desc
                          (Store.select_where Items.is_waste db))).
    { clear - Hs Hr0. induction Hs; simpl in *; auto.
      destruct Hr0 as [->|Hr0]; auto. }
    apply sort_by_In in Hin. apply filter_In in Hin. exact Hin.
  - apply (subseq_sorted _ _ _ Hs).
    pose proof (sort_by_ascending _ mass_desc mass_desc_total mass_desc_trans
                  (Store.select_where Items.is_waste db)) as Hasc.
    unfold ascending in Hasc. clear - Hasc.
    induction Hasc as [|u l Hl IH Hu]; constructor; [exact IH|].
    rewrite Forall_forall in *. intros v Hv.
    apply Qle_bool_iff. apply (Hu v Hv).
Qed.

End ReturnPlan.

Section EdgeWitnesses.
Import Handlers.



End EdgeWitnesses.
